(** * Hold CSV parser: a shallow embedding of [hold_csv_parser.py]

    The script reads two CSV grids (the main-line grid with the horizontal
    holds and the auxiliary grid with the vertical holds), merges them into
    one table indexed by column and row, fills in the kicker rows and prints
    the table as two OpenSCAD arrays.

    Modelling choices.
    - A CSV file is taken after [csv.reader]: a [list (list string)].
    - Text is a [string] of 8-bit characters (the UTF-8 bytes of the cell).
      White space and digits are the ASCII ones; the degree glyph of a cell
      such as 180˚ is a run of bytes that are neither.
    - Python integers are [Z]; list indices are [nat].  [int] is taken
      without the bound that recent interpreters put on the number of
      digits.
    - A Python [dict] is an association list in insertion order with unique
      keys: assigning to a present key keeps its position, assigning to a
      new key appends it.
    - Opening the files, the progress lines and the fixed text of the four
      OpenSCAD functions behind the two arrays are left out. *)

From Stdlib Require Import List ZArith Bool Ascii String Lia Permutation Sorted.
From Stdlib Require Import DecimalString DecimalZ.
Import ListNotations.

Local Open Scope string_scope.
Local Open Scope list_scope.

(** ** Text primitives *)

(** [str.isspace] on one ASCII character: tab to carriage return, the four
    separators 28 to 31 and the blank. *)
Definition is_space (c : ascii) : bool :=
  let n := nat_of_ascii c in
  (((9 <=? n) && (n <=? 13)) || ((28 <=? n) && (n <=? 31)) || (n =? 32))%nat.

(** [\d] on one ASCII character. *)
Definition is_digit (c : ascii) : bool :=
  let n := nat_of_ascii c in ((48 <=? n) && (n <=? 57))%nat.

Definition digit_val (c : ascii) : Z := Z.of_nat (nat_of_ascii c) - 48.

Fixpoint lstrip (s : string) : string :=
  match s with
  | String c r => if is_space c then lstrip r else s
  | EmptyString => EmptyString
  end.

Fixpoint rstrip (s : string) : string :=
  match s with
  | String c r =>
      match rstrip r with
      | EmptyString => if is_space c then EmptyString else String c EmptyString
      | r' => String c r'
      end
  | EmptyString => EmptyString
  end.

(** [s.strip()] *)
Definition strip (s : string) : string := rstrip (lstrip s).

(** Python truth value of a [str]. *)
Definition truthy (s : string) : bool :=
  match s with EmptyString => false | _ => true end.

(** [s.startswith(p)] *)
Definition startswith (p s : string) : bool := String.prefix p s.

(** The longest run of digits at the head of [s]. *)
Fixpoint take_digits (s : string) : string :=
  match s with
  | String c r => if is_digit c then String c (take_digits r) else EmptyString
  | EmptyString => EmptyString
  end.

(** [re.search(r'(\d+)', s)]: group 1 of the leftmost match. *)
Fixpoint search_digits (s : string) : option string :=
  match s with
  | String c r => if is_digit c then Some (take_digits s) else search_digits r
  | EmptyString => None
  end.

(** [re.search(r'C-(\d+)', s)]: group 1 of the leftmost match. *)
Fixpoint search_col (s : string) : option string :=
  match s with
  | String c r =>
      match c, r with
      | "C"%char, String "-"%char (String d _ as ds) =>
          if is_digit d then Some (take_digits ds) else search_col r
      | _, _ => search_col r
      end
  | EmptyString => None
  end.

(** [int(ds)] for a run of digits [ds]. *)
Definition int_of_digits (ds : string) : Z :=
  fold_left (fun acc c => 10 * acc + digit_val c)%Z (list_ascii_of_string ds) 0%Z.

(** [s.replace("K-", "K")] *)
Fixpoint replace_K (s : string) : string :=
  match s with
  | String c r =>
      match c, r with
      | "K"%char, String "-"%char r' => String "K"%char (replace_K r')
      | _, _ => String c (replace_K r)
      end
  | EmptyString => EmptyString
  end.

(** The text before the first hyphen of [s], and what follows that hyphen
    ([None] when [s] has no hyphen). *)
Fixpoint cut_dash (s : string) : string * option string :=
  match s with
  | String c r =>
      if Ascii.eqb c "-"%char then (EmptyString, Some r)
      else let (h, t) := cut_dash r in (String c h, t)
  | EmptyString => (EmptyString, None)
  end.

(** [s.split('-')[1]].  Python raises [IndexError] when [s] has no hyphen;
    the scanner only calls it on identifiers that start with R- (lemma
    [scan_row_id_shape]), and the model returns the empty text there. *)
Definition split_dash_1 (s : string) : string :=
  match snd (cut_dash s) with
  | Some t => fst (cut_dash t)
  | None => EmptyString
  end.

(** [str(n)], also the rendering of an integer inside an f-string. *)
Definition str_of_Z (n : Z) : string := NilEmpty.string_of_int (Z.to_int n).

(** [int(s)] of a decimal literal after the sign: digits, with single
    underscores allowed between two digits. *)
Fixpoint int_body (acc : Z) (s : string) : option Z :=
  match s with
  | String c r =>
      if is_digit c then
        let acc' := (10 * acc + digit_val c)%Z in
        match r with
        | EmptyString => Some acc'
        | String "_"%char r' =>
            match r' with
            | EmptyString => None
            | _ => int_body acc' r'
            end
        | _ => int_body acc' r
        end
      else None
  | EmptyString => None
  end.

(** White space skipped by [int] around the literal: tab to carriage return
    and the blank. *)
Definition is_cspace (c : ascii) : bool :=
  let n := nat_of_ascii c in (((9 <=? n) && (n <=? 13)) || (n =? 32))%nat.

Fixpoint lskip (s : string) : string :=
  match s with
  | String c r => if is_cspace c then lskip r else s
  | EmptyString => EmptyString
  end.

Fixpoint rskip (s : string) : string :=
  match s with
  | String c r =>
      match rskip r with
      | EmptyString => if is_cspace c then EmptyString else String c EmptyString
      | r' => String c r'
      end
  | EmptyString => EmptyString
  end.

(** [int(s)]: [None] stands for [ValueError]. *)
Definition py_int (s : string) : option Z :=
  match rskip (lskip s) with
  | String "-"%char r => option_map Z.opp (int_body 0 r)
  | String "+"%char r => int_body 0 r
  | r => int_body 0 r
  end.

(** ** Dictionaries *)

Section Dict.
Context {K V : Type} (eqb : K -> K -> bool).

(** [d.get(k)]; [k in d] is [dict_mem]. *)
Fixpoint dict_get (k : K) (d : list (K * V)) : option V :=
  match d with
  | [] => None
  | (k', v) :: r => if eqb k k' then Some v else dict_get k r
  end.

Definition dict_mem (k : K) (d : list (K * V)) : bool :=
  match dict_get k d with Some _ => true | None => false end.

(** [d[k] = v] *)
Fixpoint dict_set (k : K) (v : V) (d : list (K * V)) : list (K * V) :=
  match d with
  | [] => [(k, v)]
  | (k', v') :: r =>
      if eqb k k' then (k', v) :: r else (k', v') :: dict_set k v r
  end.

(** [d.keys()], in insertion order. *)
Definition dict_keys (d : list (K * V)) : list K := map fst d.
End Dict.

(** ** The hold table *)

(** One entry: [{"angles": [angle_h, angle_v], "hold_number": ...}]. *)
Record HoldEntry := mkEntry {
  angles : Z * Z;
  hold_number : string
}.

Definition RowDict := list (string * HoldEntry).

(** [hold_data]: column, then row. *)
Definition HoldTable := list (Z * RowDict).

(** [hold_data[col][row]], when both keys are present. *)
Definition table_get (col : Z) (row : string) (t : HoldTable) : option HoldEntry :=
  match dict_get Z.eqb col t with
  | Some d => dict_get String.eqb row d
  | None => None
  end.

(** [if col not in hold_data: hold_data[col] = {}] *)
Definition ensure_col (col : Z) (t : HoldTable) : HoldTable :=
  if dict_mem Z.eqb col t then t else dict_set Z.eqb col [] t.

(** [hold_data[col][row] = e]; the column is present at every call. *)
Definition table_set (col : Z) (row : string) (e : HoldEntry) (t : HoldTable)
  : HoldTable :=
  match dict_get Z.eqb col t with
  | Some d => dict_set Z.eqb col (dict_set String.eqb row e d) t
  | None => t
  end.

(** [hold_number if hold_number else default] *)
Definition label_or (label default : string) : string :=
  if truthy label then label else default.

(** The write of the main-line pass (lines 103-109 and 140-146): the entry
    is assigned whole. *)
Definition write_horizontal (col : Z) (row : string) (angle : Z)
    (label default : string) (t : HoldTable) : HoldTable :=
  let t := ensure_col col t in
  table_set col row (mkEntry (angle, 0%Z) (label_or label default)) t.

(** The write of the auxiliary pass (lines 218-228 and 259-268): a present
    entry only has its second angle assigned. *)
Definition write_vertical (col : Z) (row : string) (angle : Z)
    (label default : string) (t : HoldTable) : HoldTable :=
  let t := ensure_col col t in
  match table_get col row t with
  | Some e => table_set col row (mkEntry (fst (angles e), angle) (hold_number e)) t
  | None => table_set col row (mkEntry (0%Z, angle) (label_or label default)) t
  end.

(** ** The two passes

    The two loops of [parse_csv_files] are the same text up to the constants
    below and the write at the end. *)

Inductive Orientation := Horizontal | Vertical.

(** The index of the ROW cell, which is also the least length of a row. *)
Definition id_index (o : Orientation) : nat :=
  match o with Horizontal => 14 | Vertical => 15 end.

(** [range(1, 14)] and [range(1, 15)]. *)
Definition data_cells (o : Orientation) : list nat :=
  match o with Horizontal => seq 1 13 | Vertical => seq 1 14 end.

(** The bound of [j <= 13] and [j <= 14]. *)
Definition last_cell (o : Orientation) : nat :=
  match o with Horizontal => 13 | Vertical => 14 end.

Definition col_start (o : Orientation) : Z :=
  match o with Horizontal => 2%Z | Vertical => 1%Z end.

(** [2 + (j-1) * 2] and [1 + (j-1) * 2]. *)
Definition positional_column (o : Orientation) (j : nat) : Z :=
  (col_start o + (Z.of_nat j - 1) * 2)%Z.

Definition write (o : Orientation) :=
  match o with Horizontal => write_horizontal | Vertical => write_vertical end.

(** [f"C{col_num}_R{row_num}"] *)
Definition default_label (col : Z) (row : string) : string :=
  "C" ++ str_of_Z col ++ "_R" ++ row.

(** [rows[k][j]] under the guards [k < len(rows) and j < len(rows[k])]. *)
Definition cell (rows : list (list string)) (k j : nat) : option string :=
  match nth_error rows k with
  | Some row => nth_error row j
  | None => None
  end.

(** [range(i-1, max(0, i-5), -1)] *)
Definition lookback_range (i : nat) : list nat :=
  rev (seq (S (i - 5)) (i - 1 - (i - 5))).

(** The loop of lines 82-87: the stripped text of the first cell, going up,
    in which [C-(\d+)] is found; the empty text when the loop ends without
    a [break]. *)
Fixpoint lookback (rows : list (list string)) (j : nat) (ks : list nat) : string :=
  match ks with
  | [] => EmptyString
  | k :: ks' =>
      match cell rows k j with
      | Some c =>
          if truthy c then
            match search_col (strip c) with
            | Some _ => strip c
            | None => lookback rows j ks'
            end
          else lookback rows j ks'
      | None => lookback rows j ks'
      end
  end.

(** Lines 80-94: the column of data cell [j] of the header pair at row [i];
    [None] is Python's [None]. *)
Definition resolve_column (o : Orientation) (rows : list (list string))
    (i j : nat) : option Z :=
  let col_name := lookback rows j (lookback_range i) in
  let col_match := if truthy col_name then search_col col_name else None in
  match col_match with
  | None => if (j <=? last_cell o)%nat then Some (positional_column o j) else None
  | Some ds => Some (int_of_digits ds)
  end.

(** [if col_num:] *)
Definition col_truthy (c : option Z) : option Z :=
  match c with
  | Some n => if (n =? 0)%Z then None else Some n
  | None => None
  end.

(** The body of the loop over [j] of the ordinary branch (lines 69-109). *)
Definition process_cell (o : Orientation) (rows : list (list string)) (i : nat)
    (row_id : string) (hold_number_row angle_row : list string)
    (t : HoldTable) (j : nat) : HoldTable :=
  match nth_error angle_row j with
  | Some a =>
      let angle_text := strip a in
      if truthy angle_text then
        let hold_number :=
          match nth_error hold_number_row j with
          | Some h => strip h
          | None => EmptyString
          end in
        match search_digits angle_text with
        | Some ds =>
            let angle := int_of_digits ds in
            match col_truthy (resolve_column o rows i j) with
            | Some col_num =>
                let row_num :=
                  if startswith "K" row_id then row_id
                  else split_dash_1 row_id in
                write o col_num row_num angle hold_number
                  (default_label col_num row_num) t
            | None => t
            end
        | None => t
        end
      else t
  | None => t
  end.

(** The body of the loop over [j] of the kickboard branch (lines 126-146). *)
Definition process_kick_cell (o : Orientation) (row_id : string)
    (hold_number_row angle_row : list string) (t : HoldTable) (j : nat)
  : HoldTable :=
  match nth_error angle_row j, nth_error hold_number_row j with
  | Some a, Some h =>
      let angle_text := strip a in
      let hold_number := strip h in
      match search_digits angle_text with
      | Some ds =>
          write o (positional_column o j) row_id (int_of_digits ds)
            hold_number row_id t
      | None => t
      end
  | _, _ => t
  end.

(** The row identifier read from the ROW cell of [row], if it has one
    (lines 56-59). *)
Definition read_row_id (o : Orientation) (row : list string) : option string :=
  match nth_error row (id_index o) with
  | Some c =>
      if truthy c then
        if startswith "R-" (strip c) then Some (strip c)
        else if startswith "K-" (strip c) then Some (replace_K (strip c))
        else None
      else None
  | None => None
  end.

(** The loop of lines 118-121: the kickboard identifier of the first of the
    rows [ks] that has one. *)
Fixpoint lookahead (o : Orientation) (rows : list (list string)) (ks : list nat)
  : option string :=
  match ks with
  | [] => None
  | k :: ks' =>
      match cell rows k (id_index o) with
      | Some c =>
          if truthy c && startswith "K-" (strip c)
          then Some (replace_K (strip c))
          else lookahead o rows ks'
      | None => lookahead o rows ks'
      end
  end.

Record ScanState := mkScan {
  hold_data : HoldTable;
  row_id : option string;
  in_kickboard_section : bool
}.

(** Python truth value of [row_id], which is [None] or a [str]. *)
Definition id_known (r : option string) : bool :=
  match r with Some s => truthy s | None => false end.

Definition id_text (r : option string) : string :=
  match r with Some s => s | None => EmptyString end.

(** [i + 1 < len(rows) and len(rows[i+1]) > 0], with the row that follows. *)
Definition next_row (rows : list (list string)) (i : nat) : option (list string) :=
  match nth_error rows (S i) with
  | Some (c :: r) => Some (c :: r)
  | _ => None
  end.

(** [angle_row[0].strip() == "Angle"] *)
Definition is_angle_row (angle_row : list string) : bool :=
  match angle_row with
  | c :: _ => String.eqb (strip c) "Angle"
  | [] => false
  end.

(** One iteration of [for i in range(len(rows))]. *)
Definition scan_row (o : Orientation) (rows : list (list string))
    (st : ScanState) (i : nat) : ScanState :=
  let row := nth i rows [] in
  if (List.length row <? id_index o)%nat then st
  else
    let grid_type := strip (nth 0 row EmptyString) in
    let kick :=
      if String.eqb grid_type "Kickboard Below" then true
      else in_kickboard_section st in
    let rid :=
      match read_row_id o row with
      | Some r => Some r
      | None => row_id st
      end in
    let main_pair :=
      if String.eqb grid_type "Hold #" && id_known rid
      then next_row rows i else None in
    match main_pair with
    | Some angle_row =>
        if is_angle_row angle_row then
          mkScan
            (fold_left (process_cell o rows i (id_text rid) row angle_row)
               (data_cells o) (hold_data st))
            rid kick
        else mkScan (hold_data st) rid kick
    | None =>
        let kick_pair :=
          if kick && String.eqb grid_type "Hold #"
          then next_row rows i else None in
        match kick_pair with
        | Some angle_row =>
            if is_angle_row angle_row then
              let rid' :=
                match lookahead o rows [i; S i; S (S i)] with
                | Some r => Some r
                | None => rid
                end in
              if id_known rid' && startswith "K" (id_text rid') then
                mkScan
                  (fold_left
                     (process_kick_cell o (id_text rid') row angle_row)
                     (data_cells o) (hold_data st))
                  rid' kick
              else mkScan (hold_data st) rid' kick
            else mkScan (hold_data st) rid kick
        | None => mkScan (hold_data st) rid kick
        end
    end.

(** One pass over the rows of a source, from [row_id = None] and
    [in_kickboard_section = False]. *)
Definition scan_from (o : Orientation) (rows : list (list string))
    (st : ScanState) : ScanState :=
  fold_left (scan_row o rows) (seq 0 (List.length rows)) st.

Definition scan_source (o : Orientation) (rows : list (list string))
    (t : HoldTable) : HoldTable :=
  hold_data (scan_from o rows (mkScan t None false)).

(** ** Kicker rows *)

(** [range(start, stop, 2)] for [start <= stop]. *)
Definition range2 (start stop : Z) : list Z :=
  map (fun k => (start + 2 * Z.of_nat k)%Z)
      (seq 0 (Z.to_nat ((stop - start + 1) / 2))).

(** One iteration of the loops of lines 272-291. *)
Definition fill_kicker (row : string) (e : HoldEntry) (t : HoldTable) (col : Z)
  : HoldTable :=
  let t := ensure_col col t in
  match table_get col row t with
  | Some _ => t
  | None => table_set col row e t
  end.

Definition K1_default : HoldEntry := mkEntry (180%Z, 0%Z) "K1".
Definition K2_default : HoldEntry := mkEntry (0%Z, 90%Z) "K2".

Definition even_columns : list Z := range2 2 28.
Definition odd_columns : list Z := range2 1 28.

Definition default_fill (t : HoldTable) : HoldTable :=
  let t := fold_left (fill_kicker "K1" K1_default) even_columns t in
  fold_left (fill_kicker "K2" K2_default) odd_columns t.

(** The table after the two passes, before the kicker rows are added. *)
Definition scan_sources (mainline aux : list (list string)) : HoldTable :=
  scan_source Vertical aux (scan_source Horizontal mainline []).

Definition parse_csv_files (mainline aux : list (list string)) : HoldTable :=
  default_fill (scan_sources mainline aux).

(** ** Row order *)

(** The second component of a sort key: an [int] or a [str]. *)
Inductive KeyPayload := PInt (n : Z) | PStr (s : string).

Definition SortKey := (Z * KeyPayload)%type.

Definition row_sort_key (row : string) : SortKey :=
  if String.eqb row "K1" || String.eqb row "K2" then (2%Z, PStr row)
  else
    match py_int row with
    | Some n => (1%Z, PInt n)
    | None => (3%Z, PStr row)
    end.

(** [<] on second components.  Python raises [TypeError] when an [int]
    meets a [str]; between keys of [row_sort_key] this does not happen, as
    equal first components give second components of one kind. *)
Definition payload_lt (p q : KeyPayload) : bool :=
  match p, q with
  | PInt a, PInt b => (a <? b)%Z
  | PStr a, PStr b => String.ltb a b
  | PInt _, PStr _ => true
  | PStr _, PInt _ => false
  end.

(** [<] on tuples. *)
Definition key_lt (a b : SortKey) : bool :=
  (fst a <? fst b)%Z || ((fst a =? fst b)%Z && payload_lt (snd a) (snd b)).

Section Sorted.
Context {A : Type} (lt : A -> A -> bool).

Fixpoint insert_by (x : A) (l : list A) : list A :=
  match l with
  | [] => [x]
  | y :: r => if lt x y then x :: l else y :: insert_by x r
  end.

(** [sorted(l)]: the stable sort.  Every element goes behind the elements
    placed so far that are not greater. *)
Definition sorted_by (l : list A) : list A :=
  fold_left (fun acc x => insert_by x acc) l [].
End Sorted.

Definition row_lt (a b : string) : bool :=
  key_lt (row_sort_key a) (row_sort_key b).

(** [sorted(rows, key=row_sort_key)] *)
Definition sorted_rows (rows : list string) : list string :=
  sorted_by row_lt rows.

(** [sorted(hold_data.keys())] *)
Definition sorted_cols (t : HoldTable) : list Z :=
  sorted_by Z.ltb (dict_keys t).

(** ** Serializer *)

(** [f"{col}_{row}"] *)
Definition hold_key (col : Z) (row : string) : string :=
  str_of_Z col ++ "_" ++ row.

(** The pairs ([col], [row]) in the order of the two nested loops of
    [generate_openscad_code]. *)
Definition emit_order (t : HoldTable) : list (Z * string) :=
  flat_map
    (fun col =>
       match dict_get Z.eqb col t with
       | Some d => map (fun row => (col, row)) (sorted_rows (dict_keys d))
       | None => []
       end)
    (sorted_cols t).

(** The array [angle_data] as it is printed: key and angle pair. *)
Definition angle_data (t : HoldTable) : list (string * (Z * Z)) :=
  flat_map
    (fun cr =>
       match table_get (fst cr) (snd cr) t with
       | Some e => [(hold_key (fst cr) (snd cr), angles e)]
       | None => []
       end)
    (emit_order t).

(** The array [hold_numbers] as it is printed: key and label. *)
Definition hold_numbers (t : HoldTable) : list (string * string) :=
  flat_map
    (fun cr =>
       match table_get (fst cr) (snd cr) t with
       | Some e => [(hold_key (fst cr) (snd cr), hold_number e)]
       | None => []
       end)
    (emit_order t).

Definition dquote : string := String (ascii_of_nat 34) EmptyString.

(** The printed lines of the two arrays. *)
Definition angle_line (x : string * (Z * Z)) : string :=
  "    [" ++ dquote ++ fst x ++ dquote ++ ", [" ++ str_of_Z (fst (snd x))
    ++ ", " ++ str_of_Z (snd (snd x)) ++ "]],".

Definition hold_line (x : string * string) : string :=
  "    [" ++ dquote ++ fst x ++ dquote ++ ", " ++ dquote ++ snd x ++ dquote
    ++ "],".

(** ** Sample grids *)

(** A row with leading cell [first], data cells [cells], blank cells up to
    [width] and the ROW cell [id] behind them: with width 14 the ROW cell
    has index 14 (main line), with width 15 it has index 15 (auxiliary). *)
Definition row_of (first : string) (cells : list string) (width : nat)
    (id : string) : list string :=
  (first :: cells) ++ repeat EmptyString (width - S (List.length cells)) ++ [id].

(** Two header pairs under the row R-1, labelled A and then B. *)
Definition mainline_twice : list (list string) :=
  [ row_of "Hold #" ["A"] 14 "R-1"; row_of "Angle" ["180"] 14 EmptyString;
    row_of "Hold #" ["B"] 14 EmptyString; row_of "Angle" ["170"] 14 EmptyString ].

(** Column 4 (data cell 2) of row R-5 at 180 degrees. *)
Definition mainline_4_5 : list (list string) :=
  [ row_of "Hold #" [EmptyString; "17"] 14 "R-5";
    row_of "Angle" [EmptyString; "180"] 14 EmptyString ].

(** Row R-5 again, with data cell 1 under the column label C-4, at 90
    degrees. *)
Definition aux_4_5 : list (list string) :=
  [ row_of "Aux Grid" [] 15 EmptyString;
    row_of EmptyString ["C-4"] 15 EmptyString;
    row_of "Hold #" ["18"] 15 "R-5";
    row_of "Angle" ["90"] 15 EmptyString ].

(** A header pair whose only column label stands in the first row of the
    file. *)
Definition mainline_label_row0 : list (list string) :=
  [ row_of EmptyString ["C-8"] 14 EmptyString;
    row_of "Hold #" ["7"] 14 "R-1";
    row_of "Angle" ["180"] 14 EmptyString ].

(** The same with one more row on top. *)
Definition mainline_label_row1 : list (list string) :=
  row_of "Main Line Grid" [] 14 EmptyString :: mainline_label_row0.


(** The same block with the identifier on the angle row, so that no
    identifier is known at the header row. *)
Definition mainline_kick_unknown : list (list string) :=
  [ row_of "Kickboard Below" [] 14 EmptyString;
    row_of EmptyString ["C-7"] 14 EmptyString;
    row_of "Hold #" [EmptyString] 14 EmptyString;
    row_of "Angle" ["180"] 14 "K-1" ].

(** ** Notions used in the statements *)






(** The representation invariant of a [dict] of [dict]s: no key twice. *)
Definition table_wf (t : HoldTable) : Prop :=
  NoDup (dict_keys t) /\ Forall (fun cd => NoDup (dict_keys (snd cd))) t.

(** [s] contains an underscore. *)
Fixpoint has_underscore (s : string) : bool :=
  match s with
  | String c r => Ascii.eqb c "_"%char || has_underscore r
  | EmptyString => false
  end.

(** The key ([c'], [r']) is the key ([c], [r]). *)
Definition same_key (c : Z) (r : string) (c' : Z) (r' : string) : bool :=
  (c' =? c)%Z && String.eqb r' r.

(** The label cell of data cell [j] is missing or blank. *)
Definition label_absent (hold_number_row : list string) (j : nat) : Prop :=
  match nth_error hold_number_row j with
  | Some h => strip h = EmptyString
  | None => True
  end.

(** The row identifier after the ROW cell of row [i] was read. *)
Definition rid_after (o : Orientation) (rows : list (list string))
    (st : ScanState) (i : nat) : option string :=
  match read_row_id o (nth i rows []) with
  | Some r => Some r
  | None => row_id st
  end.


(** The shape of every row identifier that a pass holds: none yet, or a
    text that starts with R- or with K. *)
Definition id_shape (r : option string) : Prop :=
  match r with
  | Some s => startswith "R-" s = true \/ startswith "K" s = true
  | None => True
  end.


(** ** The statistics printed by [main] *)

(** [hold_data[col]] for a column taken from [hold_data.keys()]. *)
Definition col_dict (t : HoldTable) (col : Z) : RowDict :=
  match dict_get Z.eqb col t with
  | Some d => d
  | None => []
  end.

(** [sum(len(angles) for angles in hold_data.values())] *)
Definition found_holds (t : HoldTable) : nat :=
  list_sum (map (fun cd => List.length (snd cd)) t).

(** [sum(1 for col in hold_data.keys() if col % 2 == p
           for row in hold_data[col].keys())] *)
Definition parity_count (p : Z) (t : HoldTable) : nat :=
  List.length
    (flat_map (fun col => dict_keys (col_dict t col))
       (filter (fun col => (col mod 2 =? p)%Z) (dict_keys t))).

Definition horizontal_count (t : HoldTable) : nat := parity_count 0 t.
Definition vertical_count (t : HoldTable) : nat := parity_count 1 t.

(** [sum(1 for col in hold_data.keys()
           if col % 2 == p and row in hold_data[col])] *)
Definition kicker_count (p : Z) (row : string) (t : HoldTable) : nat :=
  List.length
    (filter (fun col => (col mod 2 =? p)%Z
                        && dict_mem String.eqb row (col_dict t col))
       (dict_keys t)).

Definition k1_count (t : HoldTable) : nat := kicker_count 0 "K1" t.
Definition k2_count (t : HoldTable) : nat := kicker_count 1 "K2" t.

(** ** Further notions used in the statements *)

(** The row key that the ordinary branch derives from a row identifier
    (lines 98-101). *)
Definition row_num_of (rid : string) : string :=
  if startswith "K" rid then rid else split_dash_1 rid.

(** The calls of the two write sites of a pass over [rows]: column, row
    key, angle, label and default label, with what the code has checked
    before it writes. *)
Inductive WriteCall (o : Orientation) (rows : list (list string))
  : Z -> string -> Z -> string -> string -> Prop :=
| call_main (i j : nat) (rid s ds : string) (c : Z) (l : string) :
    In j (data_cells o) ->
    truthy rid = true ->
    search_digits s = Some ds ->
    col_truthy (resolve_column o rows i j) = Some c ->
    WriteCall o rows c (row_num_of rid) (int_of_digits ds) l
      (default_label c (row_num_of rid))
| call_kick (j : nat) (rid s ds l : string) :
    In j (data_cells o) ->
    truthy rid = true ->
    startswith "K" rid = true ->
    search_digits s = Some ds ->
    WriteCall o rows (positional_column o j) rid (int_of_digits ds) l rid.

(** The entry that a write leaves at its key, given what was there. *)
Definition written (o : Orientation) (a : Z) (l d : string)
    (old : option HoldEntry) : HoldEntry :=
  match o, old with
  | Horizontal, _ => mkEntry (a, 0%Z) (label_or l d)
  | Vertical, Some e => mkEntry (fst (angles e), a) (hold_number e)
  | Vertical, None => mkEntry (0%Z, a) (label_or l d)
  end.

(** The entry of a key after both passes, from what the main-line pass
    alone and the auxiliary pass alone leave at that key. *)
Definition merge_entry (h v : option HoldEntry) : option HoldEntry :=
  match h, v with
  | Some e, Some e' => Some (mkEntry (fst (angles e), snd (angles e')) (hold_number e))
  | Some e, None => Some e
  | None, _ => v
  end.

(** [s] contains a hyphen. *)
Fixpoint has_hyphen (s : string) : bool :=
  match s with
  | String c r => Ascii.eqb c "-"%char || has_hyphen r
  | EmptyString => false
  end.

(** Every character of [s] is a digit. *)
Fixpoint all_digits (s : string) : bool :=
  match s with
  | String c r => is_digit c && all_digits r
  | EmptyString => true
  end.


(** Every entry of [t] satisfies [P]. *)
Definition table_all (P : Z -> string -> HoldEntry -> Prop) (t : HoldTable)
  : Prop :=
  forall c r e, table_get c r t = Some e -> P c r e.

(** What holds of every entry of a table that [parse_csv_files] returns. *)
Definition entry_ok (c : Z) (r : string) (e : HoldEntry) : Prop :=
  (1 <= c)%Z
  /\ (0 <= fst (angles e))%Z /\ (0 <= snd (angles e))%Z
  /\ hold_number e <> EmptyString
  /\ (startswith "K" r = true \/ has_hyphen r = false).

(** A header pair whose angle cell carries a sign. *)
Definition mainline_signed : list (list string) :=
  [ row_of "Hold #" ["9"] 14 "R-3";
    row_of "Angle" ["-45"] 14 EmptyString ].





(** * Properties *)

Example strip_ex : strip "  R-12 " = "R-12".
Proof. reflexivity. Qed.
Example replace_K_ex : replace_K "KK--" = "KK-".
Proof. reflexivity. Qed.
Example split_ex : split_dash_1 "R-1-2" = "1" /\ split_dash_1 "R--5" = EmptyString.
Proof. split; reflexivity. Qed.
Example search_col_ex : search_col "C-C-12x C-3" = Some "12".
Proof. reflexivity. Qed.
Example search_digits_ex : search_digits "ab12c34" = Some "12".
Proof. reflexivity. Qed.
Example py_int_ex :
  py_int " 12 " = Some 12%Z /\ py_int "1_0" = Some 10%Z /\ py_int "_1" = None
  /\ py_int "1__0" = None /\ py_int "-5" = Some (-5)%Z /\ py_int "- 5" = None
  /\ py_int EmptyString = None /\ py_int "007" = Some 7%Z /\ py_int "1_" = None
  /\ py_int "+" = None /\ py_int "K1" = None.
Proof. repeat split; reflexivity. Qed.
Example str_of_Z_ex : str_of_Z 26 = "26" /\ str_of_Z 0 = "0" /\ str_of_Z (-3) = "-3".
Proof. repeat split; reflexivity. Qed.

(** A header pair under R-1 with the angle 180˚ and the hold number 42 in
    data cell 1 is printed as the key 2_1 with angles [180, 0] and label
    42. *)
Example end_to_end_ex :
  let t := parse_csv_files
             [ row_of "Hold #" ["42"] 14 "R-1";
               row_of "Angle" ["180˚"] 14 EmptyString ] [] in
  In ("2_1", (180, 0)%Z) (angle_data t) /\ In ("2_1", "42") (hold_numbers t).
Proof. vm_compute. tauto. Qed.

(** Without a known identifier the kickboard branch takes K-1 from the
    angle row and stores data cell 1 in column 2, whatever stands above. *)
Example kick_unknown_ex :
  scan_source Horizontal mainline_kick_unknown []
  = [(2%Z, [("K1", mkEntry (180, 0)%Z "K1")])].
Proof. reflexivity. Qed.

Example row_labels_ex :
  read_row_id Horizontal (row_of "Hold #" [] 14 " K-1 ") = Some "K1"
  /\ read_row_id Vertical (row_of "Hold #" [] 15 "R-12") = Some "R-12"
  /\ split_dash_1 "R-12" = "12".
Proof. repeat split; reflexivity. Qed.

(** ** Dictionaries *)

Section DictFacts.
Context {K V : Type} (eqb : K -> K -> bool).
Hypothesis eqb_spec : forall x y, reflect (x = y) (eqb x y).

Lemma dict_get_set_same (k : K) (v : V) d :
  dict_get eqb k (dict_set eqb k v d) = Some v.
Proof.
  induction d as [|[k' v'] r IH]; simpl.
  - destruct (eqb_spec k k); congruence.
  - destruct (eqb_spec k k') as [->|Hne]; simpl.
    + destruct (eqb_spec k' k'); congruence.
    + destruct (eqb_spec k k'); congruence.
Qed.

Lemma dict_get_set_other (k k' : K) (v : V) d :
  k' <> k -> dict_get eqb k' (dict_set eqb k v d) = dict_get eqb k' d.
Proof.
  intros Hne. induction d as [|[k0 v0] r IH]; simpl.
  - destruct (eqb_spec k' k); congruence.
  - destruct (eqb_spec k k0) as [->|Hk]; simpl.
    + destruct (eqb_spec k' k0); congruence.
    + destruct (eqb_spec k' k0); congruence.
Qed.

Lemma dict_mem_In (k : K) (d : list (K * V)) :
  dict_mem eqb k d = true <-> In k (dict_keys d).
Proof.
  unfold dict_mem. induction d as [|[k' v'] r IH]; simpl.
  - split; [discriminate | tauto].
  - destruct (eqb_spec k k') as [->|Hne].
    + split; auto.
    + rewrite IH. split; [auto | intros [H|H]; congruence].
Qed.

Lemma dict_get_None_In (k : K) (d : list (K * V)) :
  dict_get eqb k d = None <-> ~ In k (dict_keys d).
Proof.
  rewrite <- dict_mem_In. unfold dict_mem.
  destruct (dict_get eqb k d); split; congruence.
Qed.

Lemma dict_keys_set (k : K) (v : V) d :
  dict_keys (dict_set eqb k v d) =
  if dict_mem eqb k d then dict_keys d else dict_keys d ++ [k].
Proof.
  unfold dict_mem. induction d as [|[k' v'] r IH]; simpl; auto.
  destruct (eqb_spec k k') as [->|Hne]; simpl; auto.
  rewrite IH. destruct (dict_get eqb k r); reflexivity.
Qed.

Lemma dict_set_NoDup (k : K) (v : V) d :
  NoDup (dict_keys d) -> NoDup (dict_keys (dict_set eqb k v d)).
Proof.
  intros Hnd. rewrite dict_keys_set.
  destruct (dict_mem eqb k d) eqn:Hm; auto.
  apply NoDup_app; auto.
  - constructor; [intros [] | constructor].
  - intros x Hx [<-|[]]. apply dict_mem_In in Hx. congruence.
Qed.

Lemma dict_get_In (k : K) (v : V) d :
  dict_get eqb k d = Some v -> In (k, v) d.
Proof.
  induction d as [|[k' v'] r IH]; simpl; [discriminate|].
  destruct (eqb_spec k k') as [->|Hne]; intros H.
  - left. congruence.
  - right. auto.
Qed.

Lemma dict_set_In (k : K) (v : V) d x :
  In x (dict_set eqb k v d) -> In x d \/ snd x = v.
Proof.
  induction d as [|[k' v'] r IH]; simpl.
  - intros [<-|[]]. right. reflexivity.
  - destruct (eqb_spec k k') as [->|Hne]; simpl.
    + intros [<-|H]; [right; reflexivity | left; auto].
    + intros [<-|H]; [left; auto|]. destruct (IH H); auto.
Qed.
End DictFacts.

(** ** Reading the table after a write *)

Lemma same_key_true c r c' r' : same_key c r c' r' = true <-> c' = c /\ r' = r.
Proof.
  unfold same_key. rewrite andb_true_iff, Z.eqb_eq, String.eqb_eq. tauto.
Qed.

Lemma same_key_refl c r : same_key c r c r = true.
Proof. apply same_key_true. auto. Qed.

Lemma table_get_ensure_col c r c' t :
  table_get c r (ensure_col c' t) = table_get c r t.
Proof.
  unfold ensure_col, dict_mem, table_get.
  destruct (dict_get Z.eqb c' t) eqn:Hc'; auto.
  destruct (Z.eq_dec c c') as [->|Hne].
  - rewrite (dict_get_set_same _ Z.eqb_spec), Hc'. reflexivity.
  - rewrite (dict_get_set_other _ Z.eqb_spec); auto.
Qed.

Lemma ensure_col_mem c t : dict_mem Z.eqb c (ensure_col c t) = true.
Proof.
  unfold ensure_col. destruct (dict_mem Z.eqb c t) eqn:Hm; auto.
  unfold dict_mem. rewrite (dict_get_set_same _ Z.eqb_spec). reflexivity.
Qed.

Lemma table_get_set c r e c' r' t :
  dict_mem Z.eqb c t = true ->
  table_get c' r' (table_set c r e t) =
  if same_key c r c' r' then Some e else table_get c' r' t.
Proof.
  unfold dict_mem, table_set, table_get, same_key. intros Hm.
  destruct (dict_get Z.eqb c t) as [d|] eqn:Hc; [|discriminate].
  destruct (Z.eqb_spec c' c) as [->|Hne]; simpl.
  - rewrite (dict_get_set_same _ Z.eqb_spec), Hc.
    destruct (String.eqb_spec r' r) as [->|Hr].
    + apply (dict_get_set_same _ String.eqb_spec).
    + apply (dict_get_set_other _ String.eqb_spec); auto.
  - rewrite (dict_get_set_other _ Z.eqb_spec); auto.
Qed.

Lemma table_get_write_horizontal c r a l d c' r' t :
  table_get c' r' (write_horizontal c r a l d t) =
  if same_key c r c' r' then Some (mkEntry (a, 0%Z) (label_or l d))
  else table_get c' r' t.
Proof.
  unfold write_horizontal.
  rewrite table_get_set by apply ensure_col_mem.
  rewrite table_get_ensure_col. reflexivity.
Qed.

Lemma table_get_write_vertical c r a l d c' r' t :
  table_get c' r' (write_vertical c r a l d t) =
  if same_key c r c' r' then
    Some match table_get c r t with
         | Some e => mkEntry (fst (angles e), a) (hold_number e)
         | None => mkEntry (0%Z, a) (label_or l d)
         end
  else table_get c' r' t.
Proof.
  unfold write_vertical. rewrite table_get_ensure_col.
  destruct (table_get c r t);
    rewrite table_get_set by apply ensure_col_mem;
    rewrite table_get_ensure_col; reflexivity.
Qed.

Lemma table_get_fill_kicker row e c c' r' t :
  table_get c' r' (fill_kicker row e t c) =
  if same_key c row c' r' then
    Some match table_get c row t with Some e0 => e0 | None => e end
  else table_get c' r' t.
Proof.
  unfold fill_kicker. rewrite table_get_ensure_col.
  destruct (table_get c row t) as [e0|] eqn:Hg.
  - rewrite table_get_ensure_col.
    destruct (same_key c row c' r') eqn:Hs; auto.
    apply same_key_true in Hs as [-> ->]. auto.
  - rewrite table_get_set by apply ensure_col_mem.
    rewrite table_get_ensure_col. reflexivity.
Qed.

Lemma table_get_write o c r a l d c' r' t :
  same_key c r c' r' = false ->
  table_get c' r' (write o c r a l d t) = table_get c' r' t.
Proof.
  intros Hs. destruct o; simpl.
  - rewrite table_get_write_horizontal, Hs. reflexivity.
  - rewrite table_get_write_vertical, Hs. reflexivity.
Qed.

(** ** Upserts *)

(** C1, as stated, fails on the main-line pass: under one row identifier a
    second header pair replaces the label A of the first by its own label B
    (and the whole entry with it). *)
Lemma horizontal_upsert_relabels :
  let t := scan_source Horizontal (firstn 2 mainline_twice) [] in
  table_get 2 "1" t = Some (mkEntry (180, 0)%Z "A")
  /\ table_get 2 "1" (write Horizontal 2 "1" 170 "B" (default_label 2 "1") t)
     = Some (mkEntry (170, 0)%Z "B")
  /\ table_get 2 "1" (scan_source Horizontal mainline_twice [])
     = Some (mkEntry (170, 0)%Z "B").
Proof. repeat split; reflexivity. Qed.

(** C1, amended: on a key that is present, the write of the auxiliary pass
    assigns the second angle only and keeps the first angle and the label;
    the write of the main-line pass assigns the whole entry, angles
    [angle, 0] and the label of the cell (or the default label when the cell
    is empty).  No other key changes. *)
Theorem upsert_existing_entry (o : Orientation) (c : Z) (r : string) (a : Z)
    (l d : string) (t : HoldTable) (e : HoldEntry) :
  table_get c r t = Some e ->
  table_get c r (write o c r a l d t)
  = Some match o with
         | Vertical => mkEntry (fst (angles e), a) (hold_number e)
         | Horizontal => mkEntry (a, 0%Z) (label_or l d)
         end
  /\ forall c' r', same_key c r c' r' = false ->
       table_get c' r' (write o c r a l d t) = table_get c' r' t.
Proof.
  intros He. split.
  - destruct o; simpl.
    + rewrite table_get_write_horizontal, same_key_refl. reflexivity.
    + rewrite table_get_write_vertical, same_key_refl, He. reflexivity.
  - intros c' r' Hs. apply table_get_write; assumption.
Qed.

Lemma upsert_existing_entry_witness :
  table_get 2 "1"
    (write Vertical 2 "1" 45 "B" "C2_R1"
       (scan_source Horizontal (firstn 2 mainline_twice) []))
  = Some (mkEntry (180, 45)%Z "A").
Proof.
  exact (proj1 (upsert_existing_entry Vertical 2 "1" 45 "B" "C2_R1"
                  (scan_source Horizontal (firstn 2 mainline_twice) [])
                  (mkEntry (180, 0)%Z "A") eq_refl)).
Defined.

(** C7: a write of 180 by the main-line pass at column 4, row 5, followed by
    a write of 90 by the auxiliary pass at the same key, leaves the angle
    pair (180, 90) there, whatever the table held and whatever the labels;
    and the two sample grids give that pair in the table and in the printed
    array. *)
Theorem merge_h180_v90 :
  (forall t l1 d1 l2 d2,
      option_map angles
        (table_get 4 "5"
           (write Vertical 4 "5" 90 l2 d2 (write Horizontal 4 "5" 180 l1 d1 t)))
      = Some (180, 90)%Z)
  /\ option_map angles (table_get 4 "5" (parse_csv_files mainline_4_5 aux_4_5))
     = Some (180, 90)%Z
  /\ In ("4_5", (180, 90)%Z) (angle_data (parse_csv_files mainline_4_5 aux_4_5)).
Proof.
  split; [|split].
  - intros. simpl write.
    rewrite table_get_write_vertical, same_key_refl.
    rewrite table_get_write_horizontal, same_key_refl. reflexivity.
  - reflexivity.
  - vm_compute. tauto.
Qed.

(** ** Kicker rows *)

Lemma table_get_fill_fold row e cols : forall t c r,
  table_get c r (fold_left (fill_kicker row e) cols t) =
  if existsb (Z.eqb c) cols && String.eqb r row then
    Some match table_get c row t with Some e0 => e0 | None => e end
  else table_get c r t.
Proof.
  induction cols as [|x cols IH]; intros t c r; simpl; auto.
  rewrite IH. rewrite !table_get_fill_kicker. unfold same_key.
  rewrite String.eqb_refl, andb_true_r.
  destruct (String.eqb_spec r row) as [->|Hr];
    rewrite ?andb_true_r, ?andb_false_r; auto.
  destruct (Z.eqb_spec c x) as [->|Hx]; simpl.
  - destruct (existsb (Z.eqb x) cols); destruct (table_get x row t); auto.
  - reflexivity.
Qed.

Lemma table_get_default_fill t c r :
  table_get c r (default_fill t) =
  if existsb (Z.eqb c) even_columns && String.eqb r "K1" then
    Some match table_get c "K1" t with Some e => e | None => K1_default end
  else if existsb (Z.eqb c) odd_columns && String.eqb r "K2" then
    Some match table_get c "K2" t with Some e => e | None => K2_default end
  else table_get c r t.
Proof.
  unfold default_fill. rewrite table_get_fill_fold.
  destruct (String.eqb_spec r "K2") as [->|Hr]; rewrite ?andb_false_r.
  - rewrite !table_get_fill_fold. simpl (String.eqb "K2" "K1").
    rewrite !andb_false_r. reflexivity.
  - apply table_get_fill_fold.
Qed.

Lemma even_columns_spec c :
  existsb (Z.eqb c) even_columns = true <->
  (2 <= c <= 26)%Z /\ Z.even c = true.
Proof.
  split.
  - intros H. apply existsb_exists in H as (x & Hin & Hx).
    apply Z.eqb_eq in Hx. subst x.
    vm_compute in Hin.
    repeat (destruct Hin as [<-|Hin]; [split; [lia | reflexivity]|]).
    destruct Hin.
  - intros [Hr He]. apply Z.even_spec in He as [m ->].
    apply existsb_exists. exists (2 * m)%Z. split; [|apply Z.eqb_refl].
    assert (Hm : (m = 1 \/ m = 2 \/ m = 3 \/ m = 4 \/ m = 5 \/ m = 6 \/ m = 7
                  \/ m = 8 \/ m = 9 \/ m = 10 \/ m = 11 \/ m = 12 \/ m = 13)%Z)
      by lia.
    vm_compute. intuition (subst; tauto).
Qed.

Lemma odd_columns_spec c :
  existsb (Z.eqb c) odd_columns = true <->
  (1 <= c <= 27)%Z /\ Z.odd c = true.
Proof.
  split.
  - intros H. apply existsb_exists in H as (x & Hin & Hx).
    apply Z.eqb_eq in Hx. subst x.
    vm_compute in Hin.
    repeat (destruct Hin as [<-|Hin]; [split; [lia | reflexivity]|]).
    destruct Hin.
  - intros [Hr He]. apply Z.odd_spec in He as [m ->].
    apply existsb_exists. exists (2 * m + 1)%Z. split; [|apply Z.eqb_refl].
    assert (Hm : (m = 0 \/ m = 1 \/ m = 2 \/ m = 3 \/ m = 4 \/ m = 5 \/ m = 6
                  \/ m = 7 \/ m = 8 \/ m = 9 \/ m = 10 \/ m = 11 \/ m = 12
                  \/ m = 13)%Z) by lia.
    vm_compute. intuition (subst; tauto).
Qed.

(** C2: whatever the two sources are, the table returned by
    [parse_csv_files] has, for every even column from 2 to 26, an entry at
    K1, and for every odd column from 1 to 27, an entry at K2: the entry the
    two passes left there when they left one, and otherwise the default
    with angles (180, 0), respectively (0, 90). *)
Theorem default_fill_complete (mainline aux : list (list string)) (c : Z) :
  (Z.even c = true -> (2 <= c <= 26)%Z ->
   table_get c "K1" (parse_csv_files mainline aux)
   = Some match table_get c "K1" (scan_sources mainline aux) with
          | Some e => e
          | None => mkEntry (180, 0)%Z "K1"
          end)
  /\ (Z.odd c = true -> (1 <= c <= 27)%Z ->
      table_get c "K2" (parse_csv_files mainline aux)
      = Some match table_get c "K2" (scan_sources mainline aux) with
             | Some e => e
             | None => mkEntry (0, 90)%Z "K2"
             end).
Proof.
  unfold parse_csv_files. split; intros Hp Hr; rewrite table_get_default_fill.
  - rewrite (proj2 (even_columns_spec c)) by auto. reflexivity.
  - rewrite (proj2 (odd_columns_spec c)) by auto.
    simpl (String.eqb "K2" "K1"). rewrite andb_false_r. reflexivity.
Qed.

Lemma default_fill_complete_witness :
  table_get 4 "K1" (parse_csv_files mainline_4_5 aux_4_5)
  = Some (mkEntry (180, 0)%Z "K1")
  /\ table_get 27 "K2" (parse_csv_files mainline_4_5 aux_4_5)
     = Some (mkEntry (0, 90)%Z "K2").
Proof.
  split.
  - apply (proj1 (default_fill_complete mainline_4_5 aux_4_5 4));
      [reflexivity | lia].
  - apply (proj2 (default_fill_complete mainline_4_5 aux_4_5 27));
      [reflexivity | lia].
Defined.

(** ** Labels of new entries *)

Lemma write_created o c r a d t c' r' e :
  table_get c' r' t = None ->
  table_get c' r' (write o c r a EmptyString d t) = Some e ->
  c' = c /\ r' = r /\ hold_number e = d.
Proof.
  intros Hnone Hget.
  destruct (same_key c r c' r') eqn:Hs.
  - apply same_key_true in Hs as [-> ->]. repeat split.
    destruct o; simpl in Hget.
    + rewrite table_get_write_horizontal, same_key_refl in Hget.
      injection Hget as <-. reflexivity.
    + rewrite table_get_write_vertical, same_key_refl, Hnone in Hget.
      injection Hget as <-. reflexivity.
  - rewrite table_get_write in Hget by assumption. congruence.
Qed.

Lemma process_cell_created o rows i rid hrow arow t j c r e :
  label_absent hrow j ->
  table_get c r t = None ->
  table_get c r (process_cell o rows i rid hrow arow t j) = Some e ->
  hold_number e = default_label c r.
Proof.
  unfold label_absent, process_cell. intros Habs Hnone Hget.
  destruct (nth_error arow j) as [a|]; [|congruence].
  destruct (truthy (strip a)); [|congruence].
  destruct (search_digits (strip a)) as [ds|]; [|congruence].
  destruct (col_truthy (resolve_column o rows i j)) as [col|]; [|congruence].
  assert (Hl : match nth_error hrow j with
               | Some h => strip h
               | None => EmptyString
               end = EmptyString)
    by (destruct (nth_error hrow j); auto).
  rewrite Hl in Hget.
  apply write_created in Hget as (-> & -> & ->); auto.
Qed.

Lemma process_kick_cell_created o rid hrow arow t j c r e :
  label_absent hrow j ->
  table_get c r t = None ->
  table_get c r (process_kick_cell o rid hrow arow t j) = Some e ->
  r = rid /\ hold_number e = rid.
Proof.
  unfold label_absent, process_kick_cell. intros Habs Hnone Hget.
  destruct (nth_error arow j) as [a|]; [|congruence].
  destruct (nth_error hrow j) as [h|]; [|congruence].
  destruct (search_digits (strip a)) as [ds|]; [|congruence].
  rewrite Habs in Hget.
  apply write_created in Hget as (_ & -> & ->); auto.
Qed.

Lemma default_fill_created t c r e :
  table_get c r t = None ->
  table_get c r (default_fill t) = Some e ->
  hold_number e = r /\ (r = "K1" \/ r = "K2").
Proof.
  intros Hnone Hget. rewrite table_get_default_fill in Hget.
  destruct (existsb (Z.eqb c) even_columns && String.eqb r "K1") eqn:H1.
  - apply andb_true_iff in H1 as [_ Hr]. apply String.eqb_eq in Hr. subst r.
    rewrite Hnone in Hget. injection Hget as <-. auto.
  - destruct (existsb (Z.eqb c) odd_columns && String.eqb r "K2") eqn:H2.
    + apply andb_true_iff in H2 as [_ Hr]. apply String.eqb_eq in Hr. subst r.
      rewrite Hnone in Hget. injection Hget as <-. auto.
    + congruence.
Qed.

(** C3, as stated, fails for the kicker rows: the entry that the default
    filler inserts at column 2 is labelled K1, not C2_RK1, and so is the
    entry that the kickboard branch creates from a blank label cell. *)
Lemma kicker_label_is_row_id :
  option_map hold_number (table_get 2 "K1" (parse_csv_files [] [])) = Some "K1"
  /\ default_label 2 "K1" = "C2_RK1"
  /\ label_absent (nth 2 mainline_kick_unknown []) 1
  /\ option_map hold_number
       (table_get 2 "K1" (scan_source Horizontal mainline_kick_unknown []))
     = Some "K1".
Proof. repeat split; reflexivity. Qed.

(** C3, amended: an entry created from a missing or blank label cell is
    labelled C<column>_R<row> when the ordinary branch creates it, and with
    its row identifier when the kickboard branch creates it; an entry
    inserted by the default filler is labelled with its row identifier, K1
    or K2. *)
Theorem created_entry_label (o : Orientation) (rows : list (list string))
    (i : nat) (rid : string) (hold_number_row angle_row : list string)
    (t : HoldTable) (j : nat) (c : Z) (r : string) (e : HoldEntry) :
  table_get c r t = None ->
  (label_absent hold_number_row j ->
   table_get c r (process_cell o rows i rid hold_number_row angle_row t j)
   = Some e ->
   hold_number e = default_label c r)
  /\ (label_absent hold_number_row j ->
      table_get c r (process_kick_cell o rid hold_number_row angle_row t j)
      = Some e ->
      r = rid /\ hold_number e = r)
  /\ (table_get c r (default_fill t) = Some e ->
      hold_number e = r /\ (r = "K1" \/ r = "K2")).
Proof.
  intros Hnone. split; [|split].
  - intros Habs Hget. eapply process_cell_created; eauto.
  - intros Habs Hget.
    destruct (process_kick_cell_created _ _ _ _ _ _ _ _ _ Habs Hnone Hget)
      as [-> ->].
    split; reflexivity.
  - intros Hget. eapply default_fill_created; eauto.
Qed.

Lemma created_entry_label_witness :
  hold_number (mkEntry (180, 0)%Z "C2_R1") = default_label 2 "1".
Proof.
  apply (proj1 (created_entry_label Horizontal
                  [row_of "Hold #" [] 14 "R-1"; row_of "Angle" ["180"] 14 EmptyString]
                  0 "R-1" (row_of "Hold #" [] 14 "R-1")
                  (row_of "Angle" ["180"] 14 EmptyString) [] 1 2 "1"
                  (mkEntry (180, 0)%Z "C2_R1") eq_refl));
    [exact eq_refl | reflexivity].
Defined.

(** ** One step of a pass *)






(** ** The kickboard branch *)

Lemma prefix_cons a p s :
  String.prefix (String a p) s = true ->
  exists s', s = String a s' /\ String.prefix p s' = true.
Proof.
  destruct s as [|b s]; simpl; [discriminate|].
  destruct (ascii_dec a b) as [->|]; [eauto | discriminate].
Qed.

Lemma replace_K_prefix s :
  startswith "K-" s = true -> startswith "K" (replace_K s) = true.
Proof.
  unfold startswith. intros H.
  apply prefix_cons in H as (s1 & -> & H).
  apply prefix_cons in H as (s2 & -> & _). simpl.
  destruct (replace_K s2); reflexivity.
Qed.

Lemma read_row_id_shape o row r :
  read_row_id o row = Some r ->
  startswith "R-" r = true \/ startswith "K" r = true.
Proof.
  unfold read_row_id.
  destruct (nth_error row (id_index o)) as [c|]; [|discriminate].
  destruct (truthy c); [|discriminate].
  destruct (startswith "R-" (strip c)) eqn:HR.
  - intros [= <-]. auto.
  - destruct (startswith "K-" (strip c)) eqn:HK; [|discriminate].
    intros [= <-]. right. apply replace_K_prefix, HK.
Qed.

Lemma id_shape_known r : id_shape (Some r) -> truthy r = true.
Proof.
  unfold id_shape, startswith. intros [H|H]; apply prefix_cons in H as (s' & -> & _);
    reflexivity.
Qed.










(** ** Column resolution *)

Lemma lookback_range_spec i k :
  In k (lookback_range i) <-> (1 <= k /\ k < i /\ i <= k + 4)%nat.
Proof.
  unfold lookback_range. rewrite <- in_rev, in_seq. lia.
Qed.

Lemma resolve_column_no_label o rows i j :
  lookback rows j (lookback_range i) = EmptyString ->
  (j <= last_cell o)%nat ->
  resolve_column o rows i j = Some (positional_column o j).
Proof.
  intros Hl Hj. unfold resolve_column. rewrite Hl. simpl.
  apply Nat.leb_le in Hj. rewrite Hj. reflexivity.
Qed.

Lemma lookback_no_match rows j ks :
  (forall k c, In k ks -> cell rows k j = Some c -> search_col (strip c) = None) ->
  lookback rows j ks = EmptyString.
Proof.
  induction ks as [|k ks IH]; intros H; simpl; auto.
  destruct (cell rows k j) as [c|] eqn:Hc.
  - rewrite (H k c) by (simpl; auto).
    rewrite IH by (intros; eapply H; simpl; eauto).
    destruct (truthy c); reflexivity.
  - apply IH. intros; eapply H; simpl; eauto.
Qed.

(** Without a column label in the rows that the lookback reads, data cell 3
    of the main-line grid is column 6. *)
Lemma resolve_column_cell_3 rows i :
  (forall k c, (1 <= k /\ k < i /\ i <= k + 4)%nat ->
               cell rows k 3 = Some c -> search_col (strip c) = None) ->
  resolve_column Horizontal rows i 3 = Some 6%Z.
Proof.
  intros H. rewrite resolve_column_no_label; auto.
  - apply lookback_no_match. intros k c Hk. apply H, lookback_range_spec, Hk.
  - simpl. lia.
Qed.

(** C6 at its failing input.  The lookback of the header pair at row [i]
    reads the rows [i-1] down to [i-4] except row 0: a column label in the
    first row of the file is never read.  With C-8 in row 0 directly above
    the header pair at row 1, data cell 1 resolves to the positional column
    2 and the hold is stored there; the same rows moved down by one resolve
    to column 8. *)
Theorem lookback_skips_row_0 :
  (forall i k, In k (lookback_range i) <-> (1 <= k /\ k < i /\ i <= k + 4)%nat)
  /\ cell mainline_label_row0 0 1 = Some "C-8"
  /\ resolve_column Horizontal mainline_label_row0 1 1 = Some 2%Z
  /\ scan_source Horizontal mainline_label_row0 []
     = [(2%Z, [("1", mkEntry (180, 0)%Z "7")])]
  /\ resolve_column Horizontal mainline_label_row1 2 1 = Some 8%Z
  /\ scan_source Horizontal mainline_label_row1 []
     = [(8%Z, [("1", mkEntry (180, 0)%Z "7")])].
Proof.
  split; [exact lookback_range_spec | repeat split; reflexivity].
Qed.

(** ** Sources without header pairs *)






(** ** Sorting *)

Section SortedFacts.
Context {A : Type} (lt : A -> A -> bool).
Hypothesis lt_asym : forall x y, lt x y = true -> lt y x = false.
Hypothesis lt_trans : forall x y z, lt x y = true -> lt y z = true -> lt x z = true.

Lemma insert_by_perm x l : Permutation (x :: l) (insert_by lt x l).
Proof.
  induction l as [|y r IH]; simpl; auto.
  destruct (lt x y); auto.
  rewrite perm_swap. constructor. exact IH.
Qed.

Lemma sorted_by_perm_acc l : forall acc,
  Permutation (acc ++ l) (fold_left (fun acc x => insert_by lt x acc) l acc).
Proof.
  induction l as [|x l IH]; intros acc; simpl.
  - rewrite app_nil_r. reflexivity.
  - rewrite <- IH. rewrite <- insert_by_perm.
    symmetry. apply Permutation_middle.
Qed.

Lemma sorted_by_perm l : Permutation l (sorted_by lt l).
Proof. exact (sorted_by_perm_acc l []). Qed.


End SortedFacts.













(** ** Keys of the printed arrays *)

Lemma string_of_uint_no_underscore d :
  has_underscore (NilEmpty.string_of_uint d) = false.
Proof. induction d; simpl; auto. Qed.

Lemma str_of_Z_no_underscore n : has_underscore (str_of_Z n) = false.
Proof.
  unfold str_of_Z. destruct (Z.to_int n); simpl;
    apply string_of_uint_no_underscore.
Qed.

Lemma str_of_Z_inj m n : str_of_Z m = str_of_Z n -> m = n.
Proof.
  unfold str_of_Z. intros H. apply DecimalZ.to_int_inj.
  assert (Hs : Some (Z.to_int m) = Some (Z.to_int n))
    by (rewrite <- !NilEmpty.isi, H; reflexivity).
  congruence.
Qed.

Lemma append_underscore_inj s1 : forall s2 r1 r2,
  has_underscore s1 = false -> has_underscore s2 = false ->
  (s1 ++ String "_" r1)%string = (s2 ++ String "_" r2)%string ->
  s1 = s2 /\ r1 = r2.
Proof.
  induction s1 as [|a s1 IH]; intros [|b s2] r1 r2; simpl; intros H1 H2 He.
  - injection He as ->. auto.
  - injection He as <- _. simpl in H2. discriminate.
  - injection He as -> _. simpl in H1. discriminate.
  - injection He as -> He.
    apply orb_false_iff in H1 as [_ H1]. apply orb_false_iff in H2 as [_ H2].
    destruct (IH s2 r1 r2 H1 H2 He) as [-> ->]. auto.
Qed.

Lemma hold_key_inj c r c' r' : hold_key c r = hold_key c' r' -> c = c' /\ r = r'.
Proof.
  unfold hold_key. simpl. intros H.
  apply append_underscore_inj in H as [Hc Hr];
    auto using str_of_Z_no_underscore.
  split; [apply str_of_Z_inj, Hc | exact Hr].
Qed.

Lemma emit_order_In t c r :
  In (c, r) (emit_order t) <-> table_get c r t <> None.
Proof.
  unfold emit_order, table_get. rewrite in_flat_map. split.
  - intros (col & Hcol & Hin).
    destruct (dict_get Z.eqb col t) as [d|] eqn:Hd; [|destruct Hin].
    apply in_map_iff in Hin as (row & [= -> ->] & Hrow).
    rewrite Hd.
    apply (Permutation_in _ (Permutation_sym (sorted_by_perm row_lt _))) in Hrow.
    intros Hn. apply (dict_get_None_In _ String.eqb_spec) in Hn. auto.
  - intros Hget.
    destruct (dict_get Z.eqb c t) as [d|] eqn:Hd; [|congruence].
    exists c. split.
    + apply (Permutation_in _ (sorted_by_perm Z.ltb _)).
      apply (dict_mem_In _ Z.eqb_spec). unfold dict_mem. rewrite Hd. reflexivity.
    + rewrite Hd. apply in_map.
      apply (Permutation_in _ (sorted_by_perm row_lt _)).
      apply (dict_mem_In _ String.eqb_spec). unfold dict_mem.
      destruct (dict_get String.eqb r d); congruence.
Qed.

Lemma NoDup_tagged {A B} (rows_of : A -> list B) cols :
  NoDup cols -> (forall c, NoDup (rows_of c)) ->
  NoDup (flat_map (fun c => map (pair c) (rows_of c)) cols).
Proof.
  intros Hc Hr. induction Hc as [|c cols Hnotin Hnd IH]; simpl.
  - constructor.
  - apply NoDup_app; auto.
    + clear -Hr. specialize (Hr c).
      induction Hr as [|x l Hx Hl IHl]; simpl; constructor; auto.
      rewrite in_map_iff. intros (y & [= ->] & Hy). auto.
    + intros [c' r'] H1 H2.
      apply in_map_iff in H1 as (y & [= <- <-] & _).
      apply in_flat_map in H2 as (c2 & Hc2 & Hin).
      apply in_map_iff in Hin as (y2 & [= <- <-] & _). auto.
Qed.

Lemma emit_order_NoDup t : table_wf t -> NoDup (emit_order t).
Proof.
  intros [Hcols Hrows]. unfold emit_order.
  set (rows_of := fun col =>
         match dict_get Z.eqb col t with
         | Some d => sorted_rows (dict_keys d)
         | None => []
         end).
  rewrite (flat_map_ext _ (fun c => map (pair c) (rows_of c))).
  - apply NoDup_tagged.
    + apply (Permutation_NoDup (sorted_by_perm Z.ltb _)), Hcols.
    + intros c. unfold rows_of.
      destruct (dict_get Z.eqb c t) as [d|] eqn:Hd; [|constructor].
      apply (Permutation_NoDup (sorted_by_perm row_lt _)).
      apply (dict_get_In _ Z.eqb_spec) in Hd.
      rewrite Forall_forall in Hrows. apply (Hrows _ Hd).
  - intros c. unfold rows_of. destruct (dict_get Z.eqb c t); reflexivity.
Qed.

Lemma angle_data_keys t :
  map fst (angle_data t)
  = map (fun cr => hold_key (fst cr) (snd cr)) (emit_order t).
Proof.
  unfold angle_data.
  assert (H : forall cr, In cr (emit_order t) ->
                         table_get (fst cr) (snd cr) t <> None)
    by (intros [c r] Hin; apply emit_order_In, Hin).
  induction (emit_order t) as [|cr l IH]; simpl; auto.
  rewrite map_app, IH by (intros; apply H; right; assumption).
  specialize (H cr (or_introl eq_refl)).
  destruct (table_get (fst cr) (snd cr) t); [reflexivity | congruence].
Qed.

Lemma hold_numbers_keys t :
  map fst (hold_numbers t)
  = map (fun cr => hold_key (fst cr) (snd cr)) (emit_order t).
Proof.
  unfold hold_numbers.
  assert (H : forall cr, In cr (emit_order t) ->
                         table_get (fst cr) (snd cr) t <> None)
    by (intros [c r] Hin; apply emit_order_In, Hin).
  induction (emit_order t) as [|cr l IH]; simpl; auto.
  rewrite map_app, IH by (intros; apply H; right; assumption).
  specialize (H cr (or_introl eq_refl)).
  destruct (table_get (fst cr) (snd cr) t); [reflexivity | congruence].
Qed.

Lemma NoDup_map_keys (l : list (Z * string)) :
  NoDup l -> NoDup (map (fun cr => hold_key (fst cr) (snd cr)) l).
Proof.
  induction 1 as [|[c r] l Hx Hl IH]; simpl; constructor; auto.
  rewrite in_map_iff. intros ([c' r'] & He & Hin). simpl in He.
  apply hold_key_inj in He as [-> ->]. auto.
Qed.

(** ** Every table that is built has unique keys *)

Lemma fold_left_preserves {A B} (P : A -> Prop) (f : A -> B -> A) (l : list B) :
  (forall a x, P a -> P (f a x)) -> forall a, P a -> P (fold_left f l a).
Proof.
  intros Hf. induction l as [|x l IH]; intros a Ha; simpl; auto.
Qed.

Lemma table_wf_nil : table_wf [].
Proof. split; constructor. Qed.

Lemma ensure_col_wf c t : table_wf t -> table_wf (ensure_col c t).
Proof.
  intros [Hc Hr]. unfold ensure_col.
  destruct (dict_mem Z.eqb c t); [split; assumption|]. split.
  - apply (dict_set_NoDup _ Z.eqb_spec), Hc.
  - rewrite Forall_forall in Hr |- *. intros x Hx.
    apply (dict_set_In _ Z.eqb_spec) in Hx as [Hx| ->]; [auto | constructor].
Qed.

Lemma table_set_wf c r e t : table_wf t -> table_wf (table_set c r e t).
Proof.
  intros [Hc Hr]. unfold table_set.
  destruct (dict_get Z.eqb c t) as [d|] eqn:Hd; [|split; assumption]. split.
  - apply (dict_set_NoDup _ Z.eqb_spec), Hc.
  - rewrite Forall_forall in Hr |- *. intros x Hx.
    apply (dict_set_In _ Z.eqb_spec) in Hx as [Hx| ->]; auto.
    apply (dict_set_NoDup _ String.eqb_spec).
    apply (dict_get_In _ Z.eqb_spec) in Hd. apply (Hr _ Hd).
Qed.

Lemma write_wf o c r a l d t : table_wf t -> table_wf (write o c r a l d t).
Proof.
  intros H. destruct o; simpl.
  - apply table_set_wf, ensure_col_wf, H.
  - unfold write_vertical.
    destruct (table_get c r (ensure_col c t));
      apply table_set_wf, ensure_col_wf, H.
Qed.

Lemma fill_kicker_wf row e t c : table_wf t -> table_wf (fill_kicker row e t c).
Proof.
  intros H. unfold fill_kicker.
  destruct (table_get c row (ensure_col c t)).
  - apply ensure_col_wf, H.
  - apply table_set_wf, ensure_col_wf, H.
Qed.

Lemma process_cell_wf o rows i rid hrow arow t j :
  table_wf t -> table_wf (process_cell o rows i rid hrow arow t j).
Proof.
  intros H. unfold process_cell.
  destruct (nth_error arow j); auto.
  destruct (truthy (strip s)); auto.
  destruct (search_digits (strip s)); auto.
  destruct (col_truthy (resolve_column o rows i j)); auto.
  apply write_wf, H.
Qed.

Lemma process_kick_cell_wf o rid hrow arow t j :
  table_wf t -> table_wf (process_kick_cell o rid hrow arow t j).
Proof.
  intros H. unfold process_kick_cell.
  destruct (nth_error arow j); auto.
  destruct (nth_error hrow j); auto.
  destruct (search_digits (strip s)); auto.
  apply write_wf, H.
Qed.

Lemma scan_row_wf o rows st i :
  table_wf (hold_data st) -> table_wf (hold_data (scan_row o rows st i)).
Proof.
  intros H. unfold scan_row.
  destruct (List.length (nth i rows []) <? id_index o)%nat; auto.
  destruct (if _ && _ then next_row rows i else None) as [arow|].
  - destruct (is_angle_row arow); simpl; auto.
    apply fold_left_preserves; auto. intros; apply process_cell_wf; auto.
  - destruct (if _ && _ then next_row rows i else None) as [arow|]; simpl; auto.
    destruct (is_angle_row arow); simpl; auto.
    destruct (_ && _); simpl; auto.
    apply fold_left_preserves; auto. intros; apply process_kick_cell_wf; auto.
Qed.

Lemma scan_source_wf o rows t : table_wf t -> table_wf (scan_source o rows t).
Proof.
  intros H. unfold scan_source, scan_from.
  apply (fold_left_preserves (fun st => table_wf (hold_data st))); auto.
  intros; apply scan_row_wf; auto.
Qed.

Lemma default_fill_wf t : table_wf t -> table_wf (default_fill t).
Proof.
  intros H. unfold default_fill.
  apply fold_left_preserves; [intros; apply fill_kicker_wf; auto|].
  apply fold_left_preserves; [intros; apply fill_kicker_wf; auto|]. exact H.
Qed.

Lemma parse_csv_files_wf mainline aux : table_wf (parse_csv_files mainline aux).
Proof.
  unfold parse_csv_files, scan_sources.
  apply default_fill_wf, scan_source_wf, scan_source_wf, table_wf_nil.
Qed.

(** C9: for every table (a [dict] of [dict]s, so without repeated keys) the
    keys of [angle_data] and the keys of [hold_numbers] are the same list,
    position by position; no key stands twice in it; and its keys are
    exactly the keys ([column], [row]) of the table. *)
Theorem serialized_keys (t : HoldTable) :
  table_wf t ->
  map fst (angle_data t) = map fst (hold_numbers t)
  /\ NoDup (map fst (angle_data t))
  /\ List.length (angle_data t) = List.length (hold_numbers t)
  /\ forall c r,
       In (hold_key c r) (map fst (angle_data t)) <-> table_get c r t <> None.
Proof.
  intros Hwf. split; [|split; [|split]].
  - rewrite angle_data_keys, hold_numbers_keys. reflexivity.
  - rewrite angle_data_keys. apply NoDup_map_keys, emit_order_NoDup, Hwf.
  - rewrite <- (length_map fst (angle_data t)), <- (length_map fst (hold_numbers t)).
    rewrite angle_data_keys, hold_numbers_keys. reflexivity.
  - intros c r. rewrite angle_data_keys, <- emit_order_In, in_map_iff. split.
    + intros ([c' r'] & He & Hin). simpl in He.
      apply hold_key_inj in He as [-> ->]. exact Hin.
    + intros Hin. exists (c, r). auto.
Qed.

Lemma serialized_keys_witness :
  map fst (angle_data (parse_csv_files mainline_4_5 aux_4_5))
  = map fst (hold_numbers (parse_csv_files mainline_4_5 aux_4_5))
  /\ NoDup (map fst (angle_data (parse_csv_files mainline_4_5 aux_4_5))).
Proof.
  pose proof (serialized_keys (parse_csv_files mainline_4_5 aux_4_5)
                (parse_csv_files_wf mainline_4_5 aux_4_5)) as (H1 & H2 & _).
  split; assumption.
Defined.

(** ** Row identifiers held by a pass *)

Lemma lookahead_shape o rows ks r :
  lookahead o rows ks = Some r -> startswith "K" r = true.
Proof.
  induction ks as [|k ks IH]; simpl; [discriminate|].
  destruct (cell rows k (id_index o)) as [c|]; auto.
  destruct (truthy c && startswith "K-" (strip c)) eqn:H; auto.
  intros [= <-]. apply andb_true_iff in H as [_ H].
  apply replace_K_prefix, H.
Qed.

Lemma rid_after_shape o rows st i :
  id_shape (row_id st) -> id_shape (rid_after o rows st i).
Proof.
  intros H. unfold rid_after.
  destruct (read_row_id o (nth i rows [])) as [r|] eqn:Hr; auto.
  simpl. apply (read_row_id_shape _ _ _ Hr).
Qed.

Lemma scan_row_id_shape o rows st i :
  id_shape (row_id st) -> id_shape (row_id (scan_row o rows st i)).
Proof.
  intros H. pose proof (rid_after_shape o rows st i H) as Hr.
  unfold scan_row.
  destruct (List.length (nth i rows []) <? id_index o)%nat; auto.
  fold (rid_after o rows st i).
  destruct (if _ && _ then next_row rows i else None) as [arow|].
  - destruct (is_angle_row arow); simpl; auto.
  - destruct (if _ && _ then next_row rows i else None) as [arow|]; simpl; auto.
    destruct (is_angle_row arow); simpl; auto.
    assert (Hr' : id_shape
                    match lookahead o rows [i; S i; S (S i)] with
                    | Some r => Some r
                    | None => rid_after o rows st i
                    end).
    { destruct (lookahead o rows [i; S i; S (S i)]) as [r|] eqn:Hl; auto.
      simpl. right. apply (lookahead_shape _ _ _ _ Hl). }
    destruct (_ && _); simpl; auto.
Qed.

Lemma scan_from_id_shape o rows t :
  id_shape (row_id (scan_from o rows (mkScan t None false))).
Proof.
  unfold scan_from.
  apply (fold_left_preserves (fun st => id_shape (row_id st))).
  - intros; apply scan_row_id_shape; auto.
  - exact I.
Qed.

(** An identifier of that shape which does not start with K has a hyphen:
    [row_id.split('-')[1]] is defined wherever the ordinary branch asks for
    it. *)
Lemma split_dash_1_defined r :
  id_shape (Some r) -> startswith "K" r = false ->
  snd (cut_dash r) <> None.
Proof.
  unfold id_shape, startswith. intros [H|H] HK; [|congruence].
  apply prefix_cons in H as (s1 & -> & H).
  apply prefix_cons in H as (s2 & -> & _). simpl. discriminate.
Qed.

(** * Further properties *)

(** ** Two runs of a pass *)

Lemma fold_left_rel {A B} (R : A -> A -> Prop) (f : A -> B -> A) (l : list B) :
  (forall a1 a2 x, In x l -> R a1 a2 -> R (f a1 x) (f a2 x)) ->
  forall a1 a2, R a1 a2 -> R (fold_left f l a1) (fold_left f l a2).
Proof.
  induction l as [|x l IH]; intros Hf a1 a2 Ha; simpl; auto.
  apply IH.
  - intros; apply Hf; simpl; auto.
  - apply Hf; simpl; auto.
Qed.

Section PassRelation.
Variable o : Orientation.
Variable rows : list (list string).
Variable R : HoldTable -> HoldTable -> Prop.
Hypothesis R_write : forall c r a l d t1 t2,
  WriteCall o rows c r a l d -> R t1 t2 ->
  R (write o c r a l d t1) (write o c r a l d t2).

Lemma process_cell_rel i rid hrow arow j t1 t2 :
  In j (data_cells o) -> truthy rid = true -> R t1 t2 ->
  R (process_cell o rows i rid hrow arow t1 j)
    (process_cell o rows i rid hrow arow t2 j).
Proof.
  intros Hj Hrid Ht. unfold process_cell.
  destruct (nth_error arow j) as [a|]; auto.
  destruct (truthy (strip a)); auto.
  destruct (search_digits (strip a)) as [ds|] eqn:Hds; auto.
  destruct (col_truthy (resolve_column o rows i j)) as [c|] eqn:Hc; auto.
  apply R_write; auto.
  exact (call_main o rows i j rid (strip a) ds c _ Hj Hrid Hds Hc).
Qed.

Lemma process_kick_cell_rel rid hrow arow j t1 t2 :
  In j (data_cells o) -> truthy rid = true -> startswith "K" rid = true ->
  R t1 t2 ->
  R (process_kick_cell o rid hrow arow t1 j)
    (process_kick_cell o rid hrow arow t2 j).
Proof.
  intros Hj Hrid HK Ht. unfold process_kick_cell.
  destruct (nth_error arow j) as [a|]; auto.
  destruct (nth_error hrow j) as [h|]; auto.
  destruct (search_digits (strip a)) as [ds|] eqn:Hds; auto.
  apply R_write; auto.
  exact (call_kick o rows j rid (strip a) ds _ Hj Hrid HK Hds).
Qed.

Lemma id_known_text r : id_known r = true -> truthy (id_text r) = true.
Proof. destruct r; simpl; auto. Qed.

Lemma scan_row_rel t1 t2 rid kick i :
  R t1 t2 ->
  row_id (scan_row o rows (mkScan t1 rid kick) i)
  = row_id (scan_row o rows (mkScan t2 rid kick) i)
  /\ in_kickboard_section (scan_row o rows (mkScan t1 rid kick) i)
     = in_kickboard_section (scan_row o rows (mkScan t2 rid kick) i)
  /\ R (hold_data (scan_row o rows (mkScan t1 rid kick) i))
       (hold_data (scan_row o rows (mkScan t2 rid kick) i)).
Proof.
  intros Ht. unfold scan_row. simpl.
  destruct (List.length (nth i rows []) <? id_index o)%nat; simpl; auto.
  destruct (String.eqb _ "Hold #" && id_known _) eqn:Hmain.
  - apply andb_true_iff in Hmain as [_ Hid].
    destruct (next_row rows i) as [arow|]; simpl.
    + destruct (is_angle_row arow); simpl; auto.
      repeat split. apply fold_left_rel; auto.
      intros; apply process_cell_rel; auto using id_known_text.
    + destruct (_ && _); simpl; auto.
  - destruct (_ && String.eqb _ "Hold #"); simpl; auto.
    destruct (next_row rows i) as [arow|]; simpl; auto.
    destruct (is_angle_row arow); simpl; auto.
    destruct (id_known _ && startswith "K" _) eqn:Hk; simpl; auto.
    apply andb_true_iff in Hk as [Hid HK].
    repeat split. apply fold_left_rel; auto.
    intros; apply process_kick_cell_rel; auto using id_known_text.
Qed.

Lemma scan_source_rel t1 t2 :
  R t1 t2 -> R (scan_source o rows t1) (scan_source o rows t2).
Proof.
  intros Ht. unfold scan_source, scan_from.
  assert (H : forall idx st1 st2,
             row_id st1 = row_id st2 ->
             in_kickboard_section st1 = in_kickboard_section st2 ->
             R (hold_data st1) (hold_data st2) ->
             R (hold_data (fold_left (scan_row o rows) idx st1))
               (hold_data (fold_left (scan_row o rows) idx st2))).
  { induction idx as [|i idx IH]; intros [t1' r1 k1] [t2' r2 k2]; simpl;
      intros Hr Hk HR; auto.
    subst r2 k2.
    destruct (scan_row_rel t1' t2' r1 k1 i HR) as (H1 & H2 & H3).
    apply IH; assumption. }
  apply H; auto.
Qed.
End PassRelation.

(** A property of the table that every write of the pass keeps is kept by
    the pass. *)
Lemma scan_source_preserves o rows (P : HoldTable -> Prop) :
  (forall c r a l d t, WriteCall o rows c r a l d -> P t ->
                       P (write o c r a l d t)) ->
  forall t, P t -> P (scan_source o rows t).
Proof.
  intros Hw t Ht.
  apply (scan_source_rel o rows (fun t1 _ => P t1)) with (t2 := t); auto.
Qed.

Lemma table_get_write_eq o c r a l d c' r' t :
  table_get c' r' (write o c r a l d t) =
  if same_key c r c' r' then Some (written o a l d (table_get c r t))
  else table_get c' r' t.
Proof.
  destruct o; simpl.
  - rewrite table_get_write_horizontal. reflexivity.
  - rewrite table_get_write_vertical.
    destruct (table_get c r t); reflexivity.
Qed.

Lemma write_table_all (P : Z -> string -> HoldEntry -> Prop) o c r a l d t :
  table_all P t -> P c r (written o a l d (table_get c r t)) ->
  table_all P (write o c r a l d t).
Proof.
  intros Ht Hnew c' r' e. rewrite table_get_write_eq.
  destruct (same_key c r c' r') eqn:Hs.
  - apply same_key_true in Hs as [-> ->]. intros [= <-]. exact Hnew.
  - apply Ht.
Qed.

Lemma table_all_nil P : table_all P [].
Proof. intros c r e. discriminate. Qed.

(** ** What a pass writes *)

Lemma digit_val_range c : is_digit c = true -> (0 <= digit_val c <= 9)%Z.
Proof.
  unfold is_digit, digit_val. intros H.
  apply andb_true_iff in H as [H1 H2].
  apply Nat.leb_le in H1. apply Nat.leb_le in H2. lia.
Qed.

Lemma take_digits_all_digits s : all_digits (take_digits s) = true.
Proof.
  induction s as [|c r IH]; simpl; auto.
  destruct (is_digit c) eqn:Hc; simpl; auto. rewrite Hc. exact IH.
Qed.

Lemma search_digits_all_digits s ds :
  search_digits s = Some ds -> all_digits ds = true /\ ds <> EmptyString.
Proof.
  induction s as [|c r IH]; simpl; [discriminate|].
  destruct (is_digit c) eqn:Hc; auto.
  intros [= <-]. split; [|discriminate]. simpl. rewrite Hc. simpl.
  apply take_digits_all_digits.
Qed.

Lemma search_col_all_digits s ds :
  search_col s = Some ds -> all_digits ds = true.
Proof.
  induction s as [|c r IH]; simpl; [discriminate|].
  assert (Hgen : forall x, (x = search_col r \/
                            exists d t, x = (if is_digit d
                                             then Some (take_digits (String d t))
                                             else search_col r)) ->
                           x = Some ds -> all_digits ds = true).
  { intros x [->|(d & t & ->)]; auto.
    destruct (is_digit d) eqn:Hd; auto. intros [= <-].
    apply (take_digits_all_digits (String d t)). }
  apply Hgen.
  destruct c as [[] [] [] [] [] [] [] []]; auto;
    destruct r as [|b r']; auto;
    destruct b as [[] [] [] [] [] [] [] []]; auto;
    destruct r' as [|d t]; auto. right. eauto.
Qed.

Lemma int_of_digits_nonneg ds : all_digits ds = true -> (0 <= int_of_digits ds)%Z.
Proof.
  unfold int_of_digits.
  assert (H : forall acc, (0 <= acc)%Z -> all_digits ds = true ->
               (0 <= fold_left (fun acc c => 10 * acc + digit_val c)
                      (list_ascii_of_string ds) acc)%Z).
  { induction ds as [|c r IH];
      cbn [all_digits list_ascii_of_string fold_left]; intros acc Hacc Hd; auto.
    apply andb_true_iff in Hd as [Hc Hr].
    apply IH; auto. pose proof (digit_val_range c Hc). lia. }
  intros Hd. apply H; [lia | exact Hd].
Qed.

Lemma data_cells_range o j : In j (data_cells o) -> (1 <= j <= last_cell o)%nat.
Proof. destruct o; unfold data_cells, last_cell; rewrite in_seq; lia. Qed.

Lemma positional_column_pos o j : (1 <= j)%nat -> (1 <= positional_column o j)%Z.
Proof. unfold positional_column, col_start. destruct o; lia. Qed.

Lemma resolve_column_nonneg o rows i j c :
  (1 <= j)%nat -> resolve_column o rows i j = Some c -> (0 <= c)%Z.
Proof.
  intros Hj. unfold resolve_column.
  destruct (if truthy _ then search_col _ else None) as [ds|] eqn:Hm.
  - intros [= <-]. apply int_of_digits_nonneg.
    destruct (truthy _); [|discriminate].
    apply (search_col_all_digits _ _ Hm).
  - destruct (j <=? last_cell o)%nat; [|discriminate].
    intros [= <-]. pose proof (positional_column_pos o j Hj). lia.
Qed.

Lemma col_truthy_pos o rows i j c :
  (1 <= j)%nat -> col_truthy (resolve_column o rows i j) = Some c -> (1 <= c)%Z.
Proof.
  intros Hj. unfold col_truthy.
  destruct (resolve_column o rows i j) as [n|] eqn:Hr; [|discriminate].
  apply resolve_column_nonneg in Hr; auto.
  destruct (Z.eqb_spec n 0); [discriminate|]. intros [= <-]. lia.
Qed.

Lemma cut_dash_no_hyphen s : has_hyphen (fst (cut_dash s)) = false.
Proof.
  induction s as [|c r IH]; simpl; auto.
  destruct (Ascii.eqb c "-") eqn:Hc; simpl; auto.
  destruct (cut_dash r) as [h t]. simpl in *. rewrite Hc, IH. reflexivity.
Qed.

Lemma split_dash_1_no_hyphen s : has_hyphen (split_dash_1 s) = false.
Proof.
  unfold split_dash_1. destruct (snd (cut_dash s)); auto.
  apply cut_dash_no_hyphen.
Qed.

Lemma row_num_of_shape rid :
  startswith "K" (row_num_of rid) = true \/ has_hyphen (row_num_of rid) = false.
Proof.
  unfold row_num_of. destruct (startswith "K" rid) eqn:HK; auto.
  right. apply split_dash_1_no_hyphen.
Qed.

Lemma label_or_nonempty l d : d <> EmptyString -> label_or l d <> EmptyString.
Proof. unfold label_or. destruct l; simpl; auto. discriminate. Qed.

Lemma truthy_nonempty s : truthy s = true -> s <> EmptyString.
Proof. destruct s; simpl; congruence. Qed.

Lemma write_call_ok o rows c r a l d :
  WriteCall o rows c r a l d ->
  (1 <= c)%Z /\ (0 <= a)%Z /\ d <> EmptyString
  /\ (startswith "K" r = true \/ has_hyphen r = false).
Proof.
  intros [i j rid s ds c0 l0 Hj Hrid Hds Hc | j rid s ds l0 Hj Hrid HK Hds];
    apply data_cells_range in Hj;
    apply search_digits_all_digits in Hds as [Hds _];
    repeat split.
  - eapply col_truthy_pos; [|exact Hc]. lia.
  - apply int_of_digits_nonneg, Hds.
  - discriminate.
  - apply row_num_of_shape.
  - apply positional_column_pos. lia.
  - apply int_of_digits_nonneg, Hds.
  - apply truthy_nonempty, Hrid.
  - auto.
Qed.

Lemma write_entry_ok o rows c r a l d t :
  WriteCall o rows c r a l d -> table_all entry_ok t ->
  table_all entry_ok (write o c r a l d t).
Proof.
  intros Hcall Ht. apply write_table_all; auto.
  apply write_call_ok in Hcall as (Hc & Ha & Hd & Hr).
  pose proof (label_or_nonempty l d Hd) as Hl.
  unfold entry_ok, written. destruct o.
  - simpl. repeat split; auto. lia.
  - destruct (table_get c r t) as [e|] eqn:He; simpl.
    + destruct (Ht c r e He) as (_ & H1 & _ & H2 & _). repeat split; auto.
    + repeat split; auto. lia.
Qed.

Lemma default_fill_table_all (P : Z -> string -> HoldEntry -> Prop) t :
  table_all P t ->
  (forall c, (2 <= c <= 26)%Z -> Z.even c = true -> P c "K1" K1_default) ->
  (forall c, (1 <= c <= 27)%Z -> Z.odd c = true -> P c "K2" K2_default) ->
  table_all P (default_fill t).
Proof.
  intros Ht H1 H2 c r e. rewrite table_get_default_fill.
  destruct (existsb (Z.eqb c) even_columns && String.eqb r "K1") eqn:He.
  - apply andb_true_iff in He as [He Hr]. apply String.eqb_eq in Hr. subst r.
    apply even_columns_spec in He as [Hc Hp].
    destruct (table_get c "K1" t) as [e0|] eqn:Hg; intros [= <-]; auto.
  - destruct (existsb (Z.eqb c) odd_columns && String.eqb r "K2") eqn:Ho.
    + apply andb_true_iff in Ho as [Ho Hr]. apply String.eqb_eq in Hr. subst r.
      apply odd_columns_spec in Ho as [Hc Hp].
      destruct (table_get c "K2" t) as [e0|] eqn:Hg; intros [= <-]; auto.
    + apply Ht.
Qed.

Lemma parse_csv_files_entry_ok mainline aux :
  table_all entry_ok (parse_csv_files mainline aux).
Proof.
  unfold parse_csv_files, scan_sources. apply default_fill_table_all.
  - apply scan_source_preserves; [intros; eapply write_entry_ok; eauto|].
    apply scan_source_preserves; [intros; eapply write_entry_ok; eauto|].
    apply table_all_nil.
  - intros c Hc _. unfold entry_ok. simpl. repeat split; auto; try lia.
    discriminate.
  - intros c Hc _. unfold entry_ok. simpl. repeat split; auto; try lia.
    discriminate.
Qed.

(** X1: no angle of the returned table is negative, whatever the two
    sources hold: an angle is read as the first run of digits of its cell,
    so a sign in front of the digits is dropped. *)
Theorem parsed_angles_nonnegative (mainline aux : list (list string))
    (c : Z) (r : string) (e : HoldEntry) :
  table_get c r (parse_csv_files mainline aux) = Some e ->
  (0 <= fst (angles e))%Z /\ (0 <= snd (angles e))%Z.
Proof.
  intros H. destruct (parse_csv_files_entry_ok mainline aux c r e H)
    as (_ & H1 & H2 & _). auto.
Qed.

Lemma parsed_angles_nonnegative_witness :
  (0 <= fst (45, 0))%Z /\ (0 <= snd (45, 0))%Z.
Proof.
  exact (parsed_angles_nonnegative mainline_signed [] 2 "3"
           (mkEntry (45, 0)%Z "9") eq_refl).
Defined.

(** X2: every column of the returned table is 1 or more: a column label
    C-0 resolves to a column that the code drops, and positions and
    defaults start at 1. *)
Theorem parsed_columns_positive (mainline aux : list (list string))
    (c : Z) (r : string) (e : HoldEntry) :
  table_get c r (parse_csv_files mainline aux) = Some e -> (1 <= c)%Z.
Proof.
  intros H. destruct (parse_csv_files_entry_ok mainline aux c r e H)
    as (H1 & _). auto.
Qed.

Lemma parsed_columns_positive_witness : (1 <= 4)%Z.
Proof.
  exact (parsed_columns_positive mainline_4_5 aux_4_5 4 "5"
           (mkEntry (180, 90)%Z "17") eq_refl).
Defined.

(** X3: no entry of the returned table has an empty hold number: a blank
    label cell is replaced by a default that is never empty. *)
Theorem parsed_labels_nonempty (mainline aux : list (list string))
    (c : Z) (r : string) (e : HoldEntry) :
  table_get c r (parse_csv_files mainline aux) = Some e ->
  hold_number e <> EmptyString.
Proof.
  intros H. destruct (parse_csv_files_entry_ok mainline aux c r e H)
    as (_ & _ & _ & H1 & _). auto.
Qed.

Lemma parsed_labels_nonempty_witness : "17" <> EmptyString.
Proof.
  exact (parsed_labels_nonempty mainline_4_5 aux_4_5 4 "5"
           (mkEntry (180, 90)%Z "17") eq_refl).
Defined.

(** X4: every row key of the returned table starts with K or holds no
    hyphen: the key of a numbered row is the text between the first and the
    second hyphen of its identifier, never the identifier R-<n> itself. *)
Theorem parsed_row_keys_shape (mainline aux : list (list string))
    (c : Z) (r : string) (e : HoldEntry) :
  table_get c r (parse_csv_files mainline aux) = Some e ->
  startswith "K" r = true \/ has_hyphen r = false.
Proof.
  intros H. destruct (parse_csv_files_entry_ok mainline aux c r e H)
    as (_ & _ & _ & _ & H1). auto.
Qed.

Lemma parsed_row_keys_shape_witness :
  startswith "K" "5" = true \/ has_hyphen "5" = false.
Proof.
  exact (parsed_row_keys_shape mainline_4_5 aux_4_5 4 "5"
           (mkEntry (180, 90)%Z "17") eq_refl).
Defined.

(** ** The two passes side by side *)

Lemma merge_entry_written h v a l d :
  Some (written Vertical a l d (merge_entry h v))
  = merge_entry h (Some (written Vertical a l d v)).
Proof. destruct h as [e|], v as [e'|]; reflexivity. Qed.

Lemma vertical_pass_merges aux t0 c r :
  table_get c r (scan_source Vertical aux t0)
  = merge_entry (table_get c r t0) (table_get c r (scan_source Vertical aux [])).
Proof.
  revert c r.
  apply (scan_source_rel Vertical aux
           (fun t1 t2 => forall c r,
                table_get c r t1
                = merge_entry (table_get c r t0) (table_get c r t2))).
  - intros c r a l d t1 t2 _ H c' r'. rewrite !table_get_write_eq.
    destruct (same_key c r c' r') eqn:Hs; auto.
    apply same_key_true in Hs as [-> ->].
    rewrite H. apply merge_entry_written.
  - intros c r. simpl. destruct (table_get c r t0); reflexivity.
Qed.

(** X5: the two passes do not interfere.  For every key, the entry after
    both passes is made of what each pass leaves at that key when it runs
    alone: the first angle and the hold number of the main-line entry and
    the second angle of the auxiliary entry when both exist, and the one
    entry that exists otherwise. *)
Theorem passes_merge_per_key (mainline aux : list (list string))
    (c : Z) (r : string) :
  table_get c r (scan_sources mainline aux)
  = merge_entry (table_get c r (scan_source Horizontal mainline []))
                (table_get c r (scan_source Vertical aux [])).
Proof. apply vertical_pass_merges. Qed.

Lemma horizontal_write_slot c r a l d t :
  table_all (fun _ _ e => snd (angles e) = 0%Z) t ->
  table_all (fun _ _ e => snd (angles e) = 0%Z) (write Horizontal c r a l d t).
Proof. intros H. apply write_table_all; auto. Qed.

Lemma vertical_write_slot c r a l d t :
  table_all (fun _ _ e => fst (angles e) = 0%Z) t ->
  table_all (fun _ _ e => fst (angles e) = 0%Z) (write Vertical c r a l d t).
Proof.
  intros H. apply write_table_all; auto.
  unfold written. destruct (table_get c r t) as [e|] eqn:He; simpl; auto.
  apply (H c r e He).
Qed.

(** X6: a pass fills its own angle slot only.  Every entry that the
    main-line pass builds from an empty table has second angle 0, and every
    entry that the auxiliary pass builds from an empty table has first
    angle 0. *)
Theorem pass_fills_own_slot (rows : list (list string)) (c : Z) (r : string)
    (e : HoldEntry) :
  (table_get c r (scan_source Horizontal rows []) = Some e ->
   snd (angles e) = 0%Z)
  /\ (table_get c r (scan_source Vertical rows []) = Some e ->
      fst (angles e) = 0%Z).
Proof.
  split; revert c r e.
  - apply (scan_source_preserves Horizontal rows
             (table_all (fun _ _ e => snd (angles e) = 0%Z))).
    + intros; apply horizontal_write_slot; auto.
    + apply table_all_nil.
  - apply (scan_source_preserves Vertical rows
             (table_all (fun _ _ e => fst (angles e) = 0%Z))).
    + intros; apply vertical_write_slot; auto.
    + apply table_all_nil.
Qed.

Lemma pass_fills_own_slot_witness :
  snd (angles (mkEntry (180, 0)%Z "17")) = 0%Z
  /\ fst (angles (mkEntry (0, 90)%Z "18")) = 0%Z.
Proof.
  split.
  - exact (proj1 (pass_fills_own_slot mainline_4_5 4 "5"
                    (mkEntry (180, 0)%Z "17")) eq_refl).
  - exact (proj2 (pass_fills_own_slot aux_4_5 4 "5"
                    (mkEntry (0, 90)%Z "18")) eq_refl).
Defined.

(** ** Sources without column labels *)








(** ** The default filler, again *)

Lemma fill_kicker_present row e t c :
  table_get c row t <> None -> fill_kicker row e t c = t.
Proof.
  intros H. unfold fill_kicker.
  assert (He : ensure_col c t = t).
  { unfold ensure_col, dict_mem. unfold table_get in H.
    destruct (dict_get Z.eqb c t); [reflexivity | congruence]. }
  rewrite He. destruct (table_get c row t); [reflexivity | congruence].
Qed.

Lemma fill_fold_present row e cols t :
  (forall c, In c cols -> table_get c row t <> None) ->
  fold_left (fill_kicker row e) cols t = t.
Proof.
  induction cols as [|c cols IH]; intros H; simpl; auto.
  rewrite fill_kicker_present by (apply H; simpl; auto).
  apply IH. intros; apply H; simpl; auto.
Qed.

Lemma In_existsb c cols : In c cols -> existsb (Z.eqb c) cols = true.
Proof.
  intros H. apply existsb_exists. exists c. split; auto. apply Z.eqb_refl.
Qed.

(** X8: the default filler only adds.  Every entry of the table it is given
    is still there, unchanged, in the table it returns; and running it on
    its own result changes nothing. *)
Theorem default_fill_only_adds (t : HoldTable) :
  (forall c r e, table_get c r t = Some e ->
                 table_get c r (default_fill t) = Some e)
  /\ default_fill (default_fill t) = default_fill t.
Proof.
  split.
  - intros c r e He. rewrite table_get_default_fill.
    destruct (_ && String.eqb r "K1") eqn:H1.
    + apply andb_true_iff in H1 as [_ Hr]. apply String.eqb_eq in Hr. subst r.
      rewrite He. reflexivity.
    + destruct (_ && String.eqb r "K2") eqn:H2; auto.
      apply andb_true_iff in H2 as [_ Hr]. apply String.eqb_eq in Hr. subst r.
      rewrite He. reflexivity.
  - set (t' := default_fill t). unfold default_fill at 1.
    rewrite (fill_fold_present "K1" K1_default even_columns t').
    + apply fill_fold_present. intros c Hc. unfold t'.
      rewrite table_get_default_fill, (In_existsb c odd_columns Hc).
      simpl (String.eqb "K2" "K1"). rewrite andb_false_r. simpl. discriminate.
    + intros c Hc. unfold t'.
      rewrite table_get_default_fill, (In_existsb c even_columns Hc).
      simpl. discriminate.
Qed.

Lemma default_fill_only_adds_witness :
  table_get 4 "5" (default_fill (scan_sources mainline_4_5 aux_4_5))
  = Some (mkEntry (180, 90)%Z "17").
Proof.
  exact (proj1 (default_fill_only_adds (scan_sources mainline_4_5 aux_4_5))
           4%Z "5" (mkEntry (180, 90)%Z "17") eq_refl).
Defined.

(** ** What the arrays hold *)

(** X9: the arrays print the table and nothing else.  The key of column [c]
    and row [r] stands beside the angle pair [a] in [angle_data] exactly
    when the table holds an entry with these angles at that key, and beside
    the label [l] in [hold_numbers] exactly when the table holds an entry
    with this hold number there. *)
Theorem serialized_values (t : HoldTable) (c : Z) (r : string) :
  (forall a, In (hold_key c r, a) (angle_data t)
             <-> exists e, table_get c r t = Some e /\ angles e = a)
  /\ (forall l, In (hold_key c r, l) (hold_numbers t)
                <-> exists e, table_get c r t = Some e /\ hold_number e = l).
Proof.
  split; intros x; unfold angle_data, hold_numbers; rewrite in_flat_map; split.
  - intros ([c' r'] & _ & Hin). simpl in Hin.
    destruct (table_get c' r' t) as [e|] eqn:He; [|destruct Hin].
    destruct Hin as [[= Hk <-]|[]].
    apply hold_key_inj in Hk as [-> ->]. eauto.
  - intros (e & He & <-). exists (c, r). split.
    + apply emit_order_In. congruence.
    + simpl. rewrite He. left. reflexivity.
  - intros ([c' r'] & _ & Hin). simpl in Hin.
    destruct (table_get c' r' t) as [e|] eqn:He; [|destruct Hin].
    destruct Hin as [[= Hk <-]|[]].
    apply hold_key_inj in Hk as [-> ->]. eauto.
  - intros (e & He & <-). exists (c, r). split.
    + apply emit_order_In. congruence.
    + simpl. rewrite He. left. reflexivity.
Qed.







(** ** The statistics of [main] *)

Lemma flat_map_len {A B} (f : A -> list B) l :
  List.length (flat_map f l) = list_sum (map (fun x => List.length (f x)) l).
Proof.
  induction l as [|x l IH]; simpl; auto.
  rewrite length_app, IH. reflexivity.
Qed.

Lemma list_sum_perm l l' : Permutation l l' -> list_sum l = list_sum l'.
Proof. induction 1; simpl; lia. Qed.

Lemma list_sum_map_ext_in {A} (f g : A -> nat) l :
  (forall x, In x l -> f x = g x) -> list_sum (map f l) = list_sum (map g l).
Proof.
  induction l as [|x l IH]; intros H; simpl; auto.
  rewrite (H x) by (simpl; auto). rewrite IH; auto.
  intros; apply H; simpl; auto.
Qed.

Lemma list_sum_filter_split {A} (p : A -> bool) (f : A -> nat) l :
  list_sum (map f (filter p l)) + list_sum (map f (filter (fun x => negb (p x)) l))
  = list_sum (map f l).
Proof.
  induction l as [|x l IH]; simpl; auto.
  destruct (p x); simpl; lia.
Qed.

Lemma keys_total t :
  NoDup (dict_keys t) ->
  list_sum (map (fun c => List.length (dict_keys (col_dict t c))) (dict_keys t))
  = found_holds t.
Proof.
  unfold found_holds, dict_keys.
  induction t as [|[c d] t IH]; simpl; intros Hnd; auto.
  inversion Hnd as [|? ? Hnotin Hnd']; subst.
  unfold col_dict at 1. simpl. rewrite Z.eqb_refl, length_map. f_equal.
  rewrite <- IH by assumption.
  apply list_sum_map_ext_in. intros c' Hc'.
  unfold col_dict. simpl.
  destruct (Z.eqb_spec c' c) as [->|]; [contradiction | reflexivity].
Qed.

Lemma emit_order_length t :
  List.length (emit_order t)
  = list_sum (map (fun c => List.length (dict_keys (col_dict t c))) (dict_keys t)).
Proof.
  unfold emit_order. rewrite flat_map_len.
  rewrite (list_sum_perm _ _
             (Permutation_map _ (Permutation_sym (sorted_by_perm Z.ltb (dict_keys t))))).
  apply list_sum_map_ext_in. intros c _. unfold col_dict.
  destruct (dict_get Z.eqb c t) as [d|]; simpl; auto.
  rewrite length_map.
  symmetry. apply Permutation_length, sorted_by_perm.
Qed.

Lemma mod_2_cases c : ((c mod 2 =? 1) = negb (c mod 2 =? 0))%Z.
Proof.
  pose proof (Z.mod_pos_bound c 2 eq_refl).
  destruct (Z.eqb_spec (c mod 2) 1), (Z.eqb_spec (c mod 2) 0); simpl; auto; lia.
Qed.

(** X11: the counts that [main] prints agree with what is written to the
    file.  For every table the number of holds found is the number of
    entries of [angle_data] and of [hold_numbers], and the holds of even
    columns and the holds of odd columns add up to it. *)
Theorem main_statistics (t : HoldTable) :
  table_wf t ->
  found_holds t = List.length (angle_data t)
  /\ found_holds t = List.length (hold_numbers t)
  /\ horizontal_count t + vertical_count t = found_holds t.
Proof.
  intros [Hcols _].
  assert (Hlen : found_holds t = List.length (emit_order t))
    by (rewrite emit_order_length; symmetry; apply keys_total, Hcols).
  split; [|split].
  - rewrite <- (length_map fst (angle_data t)), angle_data_keys, length_map.
    exact Hlen.
  - rewrite <- (length_map fst (hold_numbers t)), hold_numbers_keys, length_map.
    exact Hlen.
  - unfold horizontal_count, vertical_count, parity_count.
    rewrite !flat_map_len.
    rewrite (filter_ext (fun col => (col mod 2 =? 1)%Z)
               (fun col => negb (col mod 2 =? 0)%Z)) by (intros; apply mod_2_cases).
    rewrite list_sum_filter_split. apply keys_total, Hcols.
Qed.

Lemma main_statistics_witness :
  found_holds (parse_csv_files mainline_4_5 aux_4_5)
  = List.length (angle_data (parse_csv_files mainline_4_5 aux_4_5))
  /\ horizontal_count (parse_csv_files mainline_4_5 aux_4_5)
     + vertical_count (parse_csv_files mainline_4_5 aux_4_5)
     = found_holds (parse_csv_files mainline_4_5 aux_4_5).
Proof.
  pose proof (main_statistics (parse_csv_files mainline_4_5 aux_4_5)
                (parse_csv_files_wf mainline_4_5 aux_4_5)) as (H1 & _ & H3).
  split; assumption.
Defined.

Lemma kicker_listed p row cols t :
  NoDup cols ->
  (forall c, In c cols -> (c mod 2 = p)%Z /\ table_get c row t <> None) ->
  (List.length cols <= kicker_count p row t)%nat.
Proof.
  intros Hnd H. unfold kicker_count. apply NoDup_incl_length; auto.
  intros c Hc. destruct (H c Hc) as [Hp Hg].
  unfold table_get in Hg. apply filter_In.
  destruct (dict_get Z.eqb c t) as [d|] eqn:Hd; [|congruence]. split.
  - apply (dict_mem_In _ Z.eqb_spec). unfold dict_mem. rewrite Hd. reflexivity.
  - apply andb_true_iff. split; [apply Z.eqb_eq, Hp|].
    unfold col_dict, dict_mem. rewrite Hd.
    destruct (dict_get String.eqb row d); congruence.
Qed.

Lemma range2_NoDup start stop : NoDup (range2 start stop).
Proof.
  unfold range2. apply Finite.Injective_map_NoDup.
  - intros x y H. lia.
  - apply seq_NoDup.
Qed.

(** X12: whatever the two sources are, the counts of kicker holds that
    [main] prints for the returned table are at least 13 for K1 and at least
    14 for K2. *)
Theorem main_kicker_counts (mainline aux : list (list string)) :
  (13 <= k1_count (parse_csv_files mainline aux))%nat
  /\ (14 <= k2_count (parse_csv_files mainline aux))%nat.
Proof.
  unfold parse_csv_files. split.
  - change 13%nat with (List.length even_columns).
    apply kicker_listed; [apply range2_NoDup|].
    intros c Hc. apply In_existsb in Hc. split.
    + apply even_columns_spec in Hc as [_ He].
      rewrite Zmod_even, He. reflexivity.
    + rewrite table_get_default_fill, Hc. simpl. discriminate.
  - change 14%nat with (List.length odd_columns).
    apply kicker_listed; [apply range2_NoDup|].
    intros c Hc. apply In_existsb in Hc. split.
    + apply odd_columns_spec in Hc as [_ Ho].
      rewrite Zmod_odd, Ho. reflexivity.
    + rewrite table_get_default_fill, Hc.
      simpl (String.eqb "K2" "K1"). rewrite andb_false_r. simpl. discriminate.
Qed.

(** ** The nearest column label *)






(** ** Printed keys *)

(** X14: two keys are printed alike only when they are the same key: the
    text <column>_<row> determines the column and the row, although a row
    may itself hold underscores. *)
Theorem printed_key_determines_key (c c' : Z) (r r' : string) :
  hold_key c r = hold_key c' r' <-> c = c' /\ r = r'.
Proof.
  split.
  - apply hold_key_inj.
  - intros [-> ->]. reflexivity.
Qed.

(** ** No missing hyphen *)

(** X15: [row_id.split('-')[1]] finds its hyphen.  At every row of a pass,
    the row identifier that the ordinary branch would use, when it does not
    start with K, is not empty and holds a hyphen, so that the split has a
    second part. *)
Theorem row_id_has_hyphen (o : Orientation) (rows : list (list string))
    (t : HoldTable) (i : nat) (r : string) :
  rid_after o rows
    (fold_left (scan_row o rows) (seq 0 i) (mkScan t None false)) i = Some r ->
  startswith "K" r = false ->
  truthy r = true /\ snd (cut_dash r) <> None.
Proof.
  intros Hr HK.
  assert (Hs : id_shape (Some r)).
  { rewrite <- Hr. apply rid_after_shape.
    apply (fold_left_preserves (fun st => id_shape (row_id st))).
    - intros; apply scan_row_id_shape; auto.
    - exact I. }
  split; [apply id_shape_known, Hs | apply split_dash_1_defined; auto].
Qed.

Lemma row_id_has_hyphen_witness :
  truthy "R-1" = true /\ snd (cut_dash "R-1") <> None.
Proof.
  apply (row_id_has_hyphen Horizontal mainline_twice [] 2 "R-1");
    reflexivity.
Defined.

(** ** Header pairs that are dropped *)



